(** * stac_model.input: the schema of a model input and its validation

    The module [stac_model/input.py] declares pydantic models.  A model is
    built from keyword arguments or from a JSON-compatible document; pydantic
    validates every field against its annotation, collects the errors of all
    fields, and, if there are none, runs the [model_validator(mode="after")]
    hooks of the class.  The embedding below follows that order.

    Documents are JSON-compatible values.  Scalars are taken at their own
    type: the conversions pydantic attempts on a scalar of another type
    (a numeric string or a boolean given for a number) are not part of the
    model; a statement that ranges over all documents relates a validator to
    the validators of its parts, and does not depend on them.  Keys a model
    does not declare
    are ignored, as pydantic does by default.  A union is resolved by the
    first member, in declaration order, that accepts the input; lemma
    [Scaling_variant_unique] shows that for a document carrying a [type] key
    at most one member of [ScalingObject] can accept, so the order does not
    matter there. *)

From Stdlib Require Import ZArith List String Bool Arith Lia PrimFloat.
Import ListNotations.
Local Open Scope string_scope.

(** ** Documents *)

#[local] Set Warnings "-register-all".

Inductive value : Type :=
| VNone
| VBool (b : bool)
| VInt (z : Z)
| VFloat (f : float)
| VStr (s : string)
| VList (items : list value)
| VDict (entries : list (string * value)).

Definition is_None (v : value) : bool :=
  match v with VNone => true | _ => false end.

(** [d.get(key)] on an insertion-ordered dict: the first binding of [key]. *)
Fixpoint get (key : string) (d : list (string * value)) : option value :=
  match d with
  | [] => None
  | (k, v) :: rest => if String.eqb k key then Some v else get key rest
  end.

(** [{**d, key: v}]: the binding of [key] replaced (or added at the end). *)
Fixpoint set (key : string) (v : value) (d : list (string * value))
  : list (string * value) :=
  match d with
  | [] => [(key, v)]
  | (k, w) :: rest =>
      if String.eqb k key then (k, v) :: rest else (k, w) :: set key v rest
  end.

(** ** Validation results *)

Inductive ErrorType : Type :=
| missing
| string_type
| string_too_short
| number_type
| list_type
| too_short
| model_type
| literal_error
| value_error (msg : string).

Inductive result (A : Type) : Type :=
| Ok (a : A)
| ValidationError (errors : list ErrorType).
Arguments Ok {A} a.
Arguments ValidationError {A} errors.

Definition succeeds {A} (r : result A) : bool :=
  match r with Ok _ => true | ValidationError _ => false end.

Definition fails {A} (r : result A) : bool := negb (succeeds r).

Definition fmap {A B} (f : A -> B) (r : result A) : result B :=
  match r with
  | Ok a => Ok (f a)
  | ValidationError e => ValidationError e
  end.

(** Errors of independent fields are collected, not short-circuited. *)
Definition ap {A B} (rf : result (A -> B)) (ra : result A) : result B :=
  match rf, ra with
  | Ok f, Ok a => Ok (f a)
  | Ok _, ValidationError e => ValidationError e
  | ValidationError e, Ok _ => ValidationError e
  | ValidationError e1, ValidationError e2 => ValidationError (e1 ++ e2)
  end.

(** A step that only runs on a value that passed: the "after" validators. *)
Definition bind {A B} (r : result A) (k : A -> result B) : result B :=
  match r with
  | Ok a => k a
  | ValidationError e => ValidationError e
  end.

Notation "f <$> r" := (fmap f r) (at level 61, left associativity).
Notation "rf <*> ra" := (ap rf ra) (at level 61, left associativity).
Notation "r >>= k" := (bind r k) (at level 62, left associativity).

(** ** Field validators of pydantic *)

Section Fields.
Context {A : Type}.

(** A field without default: the key must be there. *)
Definition required (d : list (string * value)) (key : string)
           (validate : value -> result A) : result A :=
  match get key d with
  | Some v => validate v
  | None => ValidationError [missing]
  end.

(** A field with a default: an absent key yields the default, unvalidated. *)
Definition with_default (d : list (string * value)) (key : string)
           (default : A) (validate : value -> result A) : result A :=
  match get key d with
  | Some v => validate v
  | None => Ok default
  end.

(** [Optional[T]] *)
Definition optional (validate : value -> result A) (v : value)
  : result (option A) :=
  match v with
  | VNone => Ok None
  | _ => Some <$> validate v
  end.

Fixpoint traverse (item : value -> result A) (l : list value)
  : result (list A) :=
  match l with
  | [] => Ok []
  | v :: vs => Ok cons <*> item v <*> traverse item vs
  end.

(** [List[T]] with [Field(min_length=n)]; [Sequence[T]] and a bare
    [List[T]] are the case [n = 0]. *)
Definition list_of (min_length : nat) (item : value -> result A) (v : value)
  : result (list A) :=
  match v with
  | VList l =>
      traverse item l >>= fun xs =>
      if (List.length xs <? min_length)%nat then ValidationError [too_short] else Ok xs
  | _ => ValidationError [list_type]
  end.

(** [Union[...]]: the first member that accepts; all errors otherwise. *)
Fixpoint union (members : list (value -> result A)) (v : value) : result A :=
  match members with
  | [] => ValidationError []
  | m :: ms =>
      match m v with
      | Ok a => Ok a
      | ValidationError e =>
          match union ms v with
          | Ok a => Ok a
          | ValidationError e' => ValidationError (e ++ e')
          end
      end
  end.

(** A model is built from a dict of its fields. *)
Definition model (fields : list (string * value) -> result A) (v : value)
  : result A :=
  match v with
  | VDict d => fields d
  | _ => ValidationError [model_type]
  end.

(** [Literal[a, b, ...]] over strings, each literal standing for a
    constructor of an enumeration. *)
Definition literal (all : list A) (str : A -> string) (v : value)
  : result A :=
  match v with
  | VStr s =>
      match find (fun a => String.eqb (str a) s) all with
      | Some a => Ok a
      | None => ValidationError [literal_error]
      end
  | _ => ValidationError [literal_error]
  end.
End Fields.

(** [Literal["tag"]], the type of a discriminator field. *)
Definition tag (lit : string) (v : value) : result unit :=
  match v with
  | VStr s => if String.eqb s lit then Ok tt else ValidationError [literal_error]
  | _ => ValidationError [literal_error]
  end.

(** [Any] *)
Definition any (v : value) : result value := Ok v.

(** ** What the schema imports from [stac_model.base]

    [stac_model.base] is not among the sources.  What [input.py] takes from
    it is gathered here: the configuration of [MLMBaseModel] that bears on
    [str] fields, and the table of the [DataType] enumeration.  Both are
    parameters of every validator. *)
Record Base : Type := {
  str_min_length : nat;
  DataType : list string
}.

(** [Number: TypeAlias = Union[int, float]] *)
Inductive Number : Type :=
| NInt (z : Z)
| NFloat (f : float).

Definition validate_Number (v : value) : result Number :=
  match v with
  | VInt z => Ok (NInt z)
  | VFloat f => Ok (NFloat f)
  | _ => ValidationError [number_type]
  end.

Definition dump_Number (n : Number) : value :=
  match n with
  | NInt z => VInt z
  | NFloat f => VFloat f
  end.

(** [str], under the string rule of the base model. *)
Definition validate_str (base : Base) (v : value) : result string :=
  match v with
  | VStr s =>
      if (String.length s <? str_min_length base)%nat
      then ValidationError [string_too_short]
      else Ok s
  | _ => ValidationError [string_type]
  end.

(** A value of the [DataType] enumeration, given by its string. *)
Definition validate_DataType (base : Base) (v : value) : result string :=
  match v with
  | VStr s =>
      if existsb (String.eqb s) (DataType base)
      then Ok s
      else ValidationError [literal_error]
  | _ => ValidationError [literal_error]
  end.

(** Serialisation of one field.  A plain field is always emitted. *)
Definition emit (key : string) (v : value) : list (string * value) :=
  [(key, v)].

(** Modelled from the spec: the [OmitIfNone] marker and the serializer of
    [MLMBaseModel] that reads it, both defined in [stac_model.base].  A field
    annotated with the marker is left out of the document when its value is
    [None], and emitted like any other field otherwise. *)
Definition omit_if_none (key : string) (v : value) : list (string * value) :=
  if is_None v then [] else [(key, v)].

Definition dump_option {A} (dump : A -> value) (o : option A) : value :=
  match o with
  | Some a => dump a
  | None => VNone
  end.


(** ** [ProcessingExpression] *)

Module ProcessingExpression.
(** Modelled from the spec: the class [ProcessingExpression] of
    [stac_model.base], a generic record with a [format] and an
    [expression] field, both required. *)
Record t : Type := {
  format : string;
  expression : value
}.

Definition validate (base : Base) : value -> result t :=
  model (fun d =>
    Ok Build_t
      <*> required d "format" (validate_str base)
      <*> required d "expression" any).

Definition model_dump (self : t) : value :=
  VDict (emit "format" (VStr (format self))
         ++ emit "expression" (expression self)).
End ProcessingExpression.

(** ** [InputStructure] *)

Module InputStructure.
Record t : Type := {
  shape : list Number;
  dim_order : list string;
  data_type : string
}.

Definition validate_dimensions (self : t) : result t :=
  if negb (List.length (shape self) =? List.length (dim_order self))%nat
  then ValidationError
         [value_error
            "Dimension order and shape must be of equal length for corresponding indices."]
  else Ok self.

Definition validate (base : Base) : value -> result t :=
  model (fun d =>
    Ok Build_t
      <*> required d "shape" (list_of 1 validate_Number)
      <*> required d "dim_order" (list_of 1 (validate_str base))
      <*> required d "data_type" (validate_DataType base)
    >>= validate_dimensions).

Definition model_dump (self : t) : value :=
  VDict (emit "shape" (VList (map dump_Number (shape self)))
         ++ emit "dim_order" (VList (map VStr (dim_order self)))
         ++ emit "data_type" (VStr (data_type self))).
End InputStructure.

(** ** [ScalingObject] *)

(** One constructor per class of the union; the [type] field of a class has
    a single admissible literal, which [Scaling_type] gives back. *)
Inductive Scaling : Type :=
| ScalingClipMin (minimum : Number)
| ScalingClipMax (maximum : Number)
| ScalingClip (minimum maximum : Number)
| ScalingMinMax (minimum maximum : Number)
| ScalingZScore (mean stddev : Number)
| ScalingOffset (val : Number)
| ScalingScale (val : Number)
| ScalingProcessingExpression (format : string) (expression : value).

Definition Scaling_type (s : Scaling) : string :=
  match s with
  | ScalingClipMin _ => "clip-min"
  | ScalingClipMax _ => "clip-max"
  | ScalingClip _ _ => "clip"
  | ScalingMinMax _ _ => "min-max"
  | ScalingZScore _ _ => "z-score"
  | ScalingOffset _ => "offset"
  | ScalingScale _ => "scale"
  | ScalingProcessingExpression _ _ => "processing"
  end.

(** The literals of the [type] fields, in the order of the classes. *)
Definition Scaling_types : list string :=
  ["clip-min"; "clip-max"; "clip"; "min-max"; "z-score"; "offset"; "scale";
   "processing"].

Definition validate_ScalingClipMin : value -> result Scaling :=
  model (fun d =>
    Ok (fun _ => ScalingClipMin)
      <*> with_default d "type" tt (tag "clip-min")
      <*> required d "minimum" validate_Number).

Definition validate_ScalingClipMax : value -> result Scaling :=
  model (fun d =>
    Ok (fun _ => ScalingClipMax)
      <*> with_default d "type" tt (tag "clip-max")
      <*> required d "maximum" validate_Number).

Definition validate_ScalingClip : value -> result Scaling :=
  model (fun d =>
    Ok (fun _ => ScalingClip)
      <*> with_default d "type" tt (tag "clip")
      <*> required d "minimum" validate_Number
      <*> required d "maximum" validate_Number).

Definition validate_ScalingMinMax : value -> result Scaling :=
  model (fun d =>
    Ok (fun _ => ScalingMinMax)
      <*> with_default d "type" tt (tag "min-max")
      <*> required d "minimum" validate_Number
      <*> required d "maximum" validate_Number).

Definition validate_ScalingZScore : value -> result Scaling :=
  model (fun d =>
    Ok (fun _ => ScalingZScore)
      <*> with_default d "type" tt (tag "z-score")
      <*> required d "mean" validate_Number
      <*> required d "stddev" validate_Number).

Definition validate_ScalingOffset : value -> result Scaling :=
  model (fun d =>
    Ok (fun _ => ScalingOffset)
      <*> with_default d "type" tt (tag "offset")
      <*> required d "value" validate_Number).

Definition validate_ScalingScale : value -> result Scaling :=
  model (fun d =>
    Ok (fun _ => ScalingScale)
      <*> with_default d "type" tt (tag "scale")
      <*> required d "value" validate_Number).

(** The subclass of [ProcessingExpression]: the inherited fields come first. *)
Definition validate_ScalingProcessingExpression (base : Base)
  : value -> result Scaling :=
  model (fun d =>
    Ok (fun f e _ => ScalingProcessingExpression f e)
      <*> required d "format" (validate_str base)
      <*> required d "expression" any
      <*> with_default d "type" tt (tag "processing")).

(** The members of the union, in the order of the alias. *)
Definition Scaling_members (base : Base) : list (value -> result Scaling) :=
  [validate_ScalingMinMax;
   validate_ScalingZScore;
   validate_ScalingClip;
   validate_ScalingClipMin;
   validate_ScalingClipMax;
   validate_ScalingOffset;
   validate_ScalingScale;
   validate_ScalingProcessingExpression base].

Definition ScalingObject : Type := option Scaling.

Definition validate_ScalingObject (base : Base) : value -> result ScalingObject :=
  optional (union (Scaling_members base)).

Definition dump_Scaling (s : Scaling) : value :=
  match s with
  | ScalingClipMin mn =>
      VDict (emit "type" (VStr "clip-min") ++ emit "minimum" (dump_Number mn))
  | ScalingClipMax mx =>
      VDict (emit "type" (VStr "clip-max") ++ emit "maximum" (dump_Number mx))
  | ScalingClip mn mx =>
      VDict (emit "type" (VStr "clip") ++ emit "minimum" (dump_Number mn)
             ++ emit "maximum" (dump_Number mx))
  | ScalingMinMax mn mx =>
      VDict (emit "type" (VStr "min-max") ++ emit "minimum" (dump_Number mn)
             ++ emit "maximum" (dump_Number mx))
  | ScalingZScore m sd =>
      VDict (emit "type" (VStr "z-score") ++ emit "mean" (dump_Number m)
             ++ emit "stddev" (dump_Number sd))
  | ScalingOffset x =>
      VDict (emit "type" (VStr "offset") ++ emit "value" (dump_Number x))
  | ScalingScale x =>
      VDict (emit "type" (VStr "scale") ++ emit "value" (dump_Number x))
  | ScalingProcessingExpression f e =>
      VDict (emit "format" (VStr f) ++ emit "expression" e
             ++ emit "type" (VStr "processing"))
  end.

Definition dump_ScalingObject : ScalingObject -> value :=
  dump_option dump_Scaling.

(** ** [ResizeType] *)

Inductive Resize : Type :=
| crop
| pad
| interpolation_nearest
| interpolation_linear
| interpolation_cubic
| interpolation_area
| interpolation_lanczos4
| interpolation_max
| wrap_fill_outliers
| wrap_inverse_map.

Definition Resize_str (r : Resize) : string :=
  match r with
  | crop => "crop"
  | pad => "pad"
  | interpolation_nearest => "interpolation-nearest"
  | interpolation_linear => "interpolation-linear"
  | interpolation_cubic => "interpolation-cubic"
  | interpolation_area => "interpolation-area"
  | interpolation_lanczos4 => "interpolation-lanczos4"
  | interpolation_max => "interpolation-max"
  | wrap_fill_outliers => "wrap-fill-outliers"
  | wrap_inverse_map => "wrap-inverse-map"
  end.

Definition Resize_literals : list Resize :=
  [crop; pad; interpolation_nearest; interpolation_linear;
   interpolation_cubic; interpolation_area; interpolation_lanczos4;
   interpolation_max; wrap_fill_outliers; wrap_inverse_map].

Definition ResizeType : Type := option Resize.

Definition validate_ResizeType : value -> result ResizeType :=
  optional (literal Resize_literals Resize_str).

Definition dump_ResizeType : ResizeType -> value :=
  dump_option (fun r => VStr (Resize_str r)).

(** ** [ModelBand] *)

Module ModelBand.
(** [expression] is [Optional[Any]]: any value, [None] among them, so the
    field holds a [value] and is unset when that value is [VNone]. *)
Record t : Type := {
  name : string;
  format : option string;
  expression : value
}.

Definition is_none {A} (o : option A) : bool :=
  match o with None => true | Some _ => false end.

Definition validate_expression (self : t) : result t :=
  if (negb (is_none (format self)) || negb (is_None (expression self)))
     && (is_none (format self) || is_None (expression self))
  then ValidationError
         [value_error
            "Model band 'format' and 'expression' are mutually dependant."]
  else Ok self.

Definition validate (base : Base) : value -> result t :=
  model (fun d =>
    Ok Build_t
      <*> required d "name" (validate_str base)
      <*> with_default d "format" None (optional (validate_str base))
      <*> with_default d "expression" VNone any
    >>= validate_expression).

Definition model_dump (self : t) : value :=
  VDict (emit "name" (VStr (name self))
         ++ omit_if_none "format" (dump_option VStr (format self))
         ++ omit_if_none "expression" (expression self)).
End ModelBand.

(** ** [ModelInput] *)

(** [Union[str, ModelBand]], the type of an element of [bands]. *)
Inductive band : Type :=
| Named (s : string)
| Band (b : ModelBand.t).

Definition validate_band (base : Base) : value -> result band :=
  union [fun v => Named <$> validate_str base v;
         fun v => Band <$> ModelBand.validate base v].

Definition dump_band (b : band) : value :=
  match b with
  | Named s => VStr s
  | Band m => ModelBand.model_dump m
  end.

Module ModelInput.
(** [resize_type] is [Optional[ResizeType]] with [ResizeType] itself
    optional: the two collapse into one. *)
Record t : Type := {
  name : string;
  bands : list band;
  input : InputStructure.t;
  scaling : option (list ScalingObject);
  resize_type : ResizeType;
  pre_processing_function : option ProcessingExpression.t
}.

Definition validate (base : Base) : value -> result t :=
  model (fun d =>
    Ok Build_t
      <*> required d "name" (validate_str base)
      <*> required d "bands" (list_of 0 (validate_band base))
      <*> required d "input" (InputStructure.validate base)
      <*> with_default d "scaling" None
            (optional (list_of 0 (validate_ScalingObject base)))
      <*> with_default d "resize_type" None validate_ResizeType
      <*> with_default d "pre_processing_function" None
            (optional (ProcessingExpression.validate base))).

Definition model_dump (self : t) : value :=
  VDict (emit "name" (VStr (name self))
         ++ emit "bands" (VList (map dump_band (bands self)))
         ++ emit "input" (InputStructure.model_dump (input self))
         ++ omit_if_none "scaling"
              (dump_option (fun l => VList (map dump_ScalingObject l))
                           (scaling self))
         ++ omit_if_none "resize_type" (dump_ResizeType (resize_type self))
         ++ emit "pre_processing_function"
              (dump_option ProcessingExpression.model_dump
                           (pre_processing_function self))).
End ModelInput.

(** ** Calls with arguments of the annotated types

    [InputStructure(shape=..., dim_order=..., data_type=...)] and the like:
    the keyword arguments as a document. *)

Definition str_ok (base : Base) (s : string) : Prop :=
  str_min_length base <= String.length s.

Definition InputStructure_kwargs
           (shape : list Number) (dim_order : list string) (data_type : string)
  : value :=
  VDict [("shape", VList (map dump_Number shape));
         ("dim_order", VList (map VStr dim_order));
         ("data_type", VStr data_type)].

(** A table for the examples; the statements hold for every table. *)
Definition example_base : Base :=
  {| str_min_length := 0; DataType := ["uint8"; "float32"] |}.

(** The class a [type] literal names; an unknown literal names none. *)
Definition Scaling_class (base : Base) (t : string) : value -> result Scaling :=
  if String.eqb t "min-max" then validate_ScalingMinMax
  else if String.eqb t "z-score" then validate_ScalingZScore
  else if String.eqb t "clip" then validate_ScalingClip
  else if String.eqb t "clip-min" then validate_ScalingClipMin
  else if String.eqb t "clip-max" then validate_ScalingClipMax
  else if String.eqb t "offset" then validate_ScalingOffset
  else if String.eqb t "scale" then validate_ScalingScale
  else if String.eqb t "processing" then validate_ScalingProcessingExpression base
  else fun _ => ValidationError [literal_error].

(** The fields without default of the class a [type] literal names. *)
Definition Scaling_required (t : string) : list string :=
  if String.eqb t "min-max" then ["minimum"; "maximum"]
  else if String.eqb t "z-score" then ["mean"; "stddev"]
  else if String.eqb t "clip" then ["minimum"; "maximum"]
  else if String.eqb t "clip-min" then ["minimum"]
  else if String.eqb t "clip-max" then ["maximum"]
  else if String.eqb t "offset" then ["value"]
  else if String.eqb t "scale" then ["value"]
  else if String.eqb t "processing" then ["format"; "expression"]
  else [].

(** A required field of a scaling document is there and of its type: a
    number, but for the two fields of a processing expression. *)
Definition Scaling_field_ok (base : Base) (d : list (string * value))
           (key : string) : bool :=
  match get key d with
  | None => false
  | Some v =>
      if String.eqb key "format" then succeeds (validate_str base v)
      else if String.eqb key "expression" then true
      else succeeds (validate_Number v)
  end.

(** A string is accepted as [type] when some scaling document carrying it
    passes validation. *)
Definition type_accepted (base : Base) (t : string) : Prop :=
  exists d x,
    get "type" d = Some (VStr t) /\ validate_ScalingObject base (VDict d) = Ok x.

(** [ModelBand(name=..., format=..., expression=...)]: a keyword left out
    is [None] here; [expression=None] is [Some VNone]. *)
Definition ModelBand_kwargs
           (name : string) (format : option string) (expression : option value)
  : value :=
  VDict ([("name", VStr name)]
         ++ match format with Some f => [("format", VStr f)] | None => [] end
         ++ match expression with Some v => [("expression", v)] | None => [] end).

(** A field is set when it is given and is not [None]. *)
Definition is_set (o : option value) : bool :=
  match o with
  | Some v => negb (is_None v)
  | None => false
  end.

Definition is_some {A} (o : option A) : bool :=
  match o with Some _ => true | None => false end.

Definition or_None (o : option value) : value :=
  match o with Some v => v | None => VNone end.

(** The keys of a serialised model, in the order they are emitted. *)
Definition keys (v : value) : list string :=
  match v with
  | VDict d => map fst d
  | _ => []
  end.

Definition item (key : string) (v : value) : option value :=
  match v with
  | VDict d => get key d
  | _ => None
  end.

(** The example of the [bands] field, completed into a model input. *)
Definition example_bands : list value :=
  [VStr "B01";
   VDict [("name", VStr "B02")];
   VDict [("name", VStr "NDVI"); ("format", VStr "rio-calc");
          ("expression", VStr "(B08 - B04) / (B08 + B04)")]].

Definition example_document : value :=
  VDict [("name", VStr "sentinel");
         ("bands", VList example_bands);
         ("input",
          InputStructure_kwargs [NInt (-1); NInt 3; NInt 64; NFloat 64.5]
                                ["batch"; "channel"; "height"; "width"]
                                "float32");
         ("scaling",
          VList [VDict [("type", VStr "min-max"); ("minimum", VInt 0);
                        ("maximum", VInt 1)];
                 VNone]);
         ("resize_type", VStr "crop")].

Definition example_model : ModelInput.t :=
  {| ModelInput.name := "sentinel";
     ModelInput.bands :=
       [Named "B01";
        Band (ModelBand.Build_t "B02" None VNone);
        Band (ModelBand.Build_t "NDVI" (Some "rio-calc")
                (VStr "(B08 - B04) / (B08 + B04)"))];
     ModelInput.input :=
       InputStructure.Build_t [NInt (-1); NInt 3; NInt 64; NFloat 64.5]
                              ["batch"; "channel"; "height"; "width"]
                              "float32";
     ModelInput.scaling := Some [Some (ScalingMinMax (NInt 0) (NInt 1)); None];
     ModelInput.resize_type := Some crop;
     ModelInput.pre_processing_function := None |}.

(** * Properties *)

(** ** The result combinators *)

Lemma fmap_Ok {A B} (f : A -> B) (r : result A) (b : B) :
  f <$> r = Ok b -> exists a, r = Ok a /\ b = f a.
Proof. destruct r as [a|e]; simpl; intros H; [|discriminate]. injection H as <-. eauto. Qed.

Lemma ap_Ok {A B} (rf : result (A -> B)) (ra : result A) (b : B) :
  rf <*> ra = Ok b -> exists f a, rf = Ok f /\ ra = Ok a /\ b = f a.
Proof.
  destruct rf as [f|e1], ra as [a|e2]; simpl; intros H; try discriminate.
  injection H as <-. eauto.
Qed.

Lemma bind_Ok {A B} (r : result A) (k : A -> result B) (b : B) :
  r >>= k = Ok b -> exists a, r = Ok a /\ k a = Ok b.
Proof. destruct r as [a|e]; simpl; intros H; [eauto | discriminate]. Qed.

Lemma fails_not_Ok {A} (r : result A) :
  fails r = true <-> forall a, r <> Ok a.
Proof.
  destruct r as [a|e]; unfold fails; simpl; split; intros H; try discriminate; auto.
  exfalso. exact (H a eq_refl).
Qed.

Lemma required_Ok {A} d key (validate : value -> result A) a :
  required d key validate = Ok a ->
  exists v, get key d = Some v /\ validate v = Ok a.
Proof. unfold required. destruct (get key d); [eauto | discriminate]. Qed.

Lemma optional_Ok {A} (validate : value -> result A) v o :
  optional validate v = Ok o ->
  (v = VNone /\ o = None) \/ (exists a, validate v = Ok a /\ o = Some a).
Proof.
  destruct v; simpl; intros H;
    try (apply fmap_Ok in H; destruct H as (a & Ha & ->); right; eauto).
  injection H as <-. auto.
Qed.

Lemma optional_not_None {A} (validate : value -> result A) v a :
  validate v = Ok a -> is_None v = false -> optional validate v = Ok (Some a).
Proof. intros H Hv. destruct v; try discriminate; simpl; rewrite H; reflexivity. Qed.

(** Peels a chain [Ok f <*> r1 <*> ... <*> rn = Ok x] into its fields. *)
Ltac peel H :=
  repeat match type of H with
    | _ >>= _ = Ok _ =>
        let a := fresh "a" in let Ha := fresh "Ha" in
        apply bind_Ok in H; destruct H as (a & H & Ha)
    | _ <*> _ = Ok _ =>
        let f := fresh "f" in let a := fresh "a" in
        let Ha := fresh "Ha" in let E := fresh "E" in
        apply ap_Ok in H; destruct H as (f & a & H & Ha & E)
    | Ok _ = Ok _ => injection H as H
    end.

(** Inverts the hypothesis about the field [key] of a model that passed. *)
Tactic Notation "field" constr(key) "as" simple_intropattern(p) :=
  match goal with
  | H : required _ key _ = Ok _ |- _ => apply required_Ok in H as p
  end.

(** ** Lists *)

Lemma traverse_map {A} (item : value -> result A) (dump : A -> value) l :
  Forall (fun a => item (dump a) = Ok a) l ->
  traverse item (map dump l) = Ok l.
Proof.
  induction 1 as [|a l Ha _ IH]; simpl; [reflexivity|].
  rewrite Ha, IH. reflexivity.
Qed.

Lemma traverse_Ok {A} (item : value -> result A) l xs :
  traverse item l = Ok xs -> Forall2 (fun v a => item v = Ok a) l xs.
Proof.
  revert xs. induction l as [|v l IH]; cbn [traverse]; intros xs H.
  - injection H as <-. constructor.
  - peel H. subst. constructor; auto.
Qed.

Lemma list_of_Ok {A} n (item : value -> result A) v xs :
  list_of n item v = Ok xs ->
  exists l, v = VList l /\ traverse item l = Ok xs /\ n <= List.length xs.
Proof.
  destruct v; simpl; try discriminate. intros H. peel H.
  destruct (Nat.ltb_spec (List.length a) n); [discriminate|].
  injection Ha as <-. eauto.
Qed.

Lemma list_of_map {A} n (item : value -> result A) (dump : A -> value) xs :
  Forall (fun a => item (dump a) = Ok a) xs ->
  list_of n item (VList (map dump xs)) =
  if (List.length xs <? n)%nat then ValidationError [too_short] else Ok xs.
Proof. intros H. simpl. rewrite (traverse_map _ _ _ H). reflexivity. Qed.

(** ** Scalars *)

Lemma validate_Number_dump n : validate_Number (dump_Number n) = Ok n.
Proof. destruct n; reflexivity. Qed.

Lemma validate_str_Ok base v s :
  validate_str base v = Ok s -> v = VStr s /\ str_ok base s.
Proof.
  destruct v; simpl; try discriminate. unfold str_ok.
  destruct (Nat.ltb_spec (String.length s0) (str_min_length base)); [discriminate|].
  intros E. injection E as <-. auto.
Qed.

Lemma validate_str_VStr base s :
  str_ok base s -> validate_str base (VStr s) = Ok s.
Proof.
  unfold str_ok. simpl. intros H.
  destruct (Nat.ltb_spec (String.length s) (str_min_length base)); [lia | reflexivity].
Qed.

Lemma validate_DataType_Ok base v s :
  validate_DataType base v = Ok s -> v = VStr s /\ In s (DataType base).
Proof.
  destruct v; simpl; try discriminate.
  destruct (existsb (String.eqb s0) (DataType base)) eqn:E; [|discriminate].
  intros H. injection H as <-. split; [reflexivity|].
  apply existsb_exists in E. destruct E as (x & Hin & Hx).
  apply String.eqb_eq in Hx. subst. assumption.
Qed.

Lemma validate_DataType_VStr base s :
  In s (DataType base) -> validate_DataType base (VStr s) = Ok s.
Proof.
  intros H. simpl.
  replace (existsb (String.eqb s) (DataType base)) with true; [reflexivity|].
  symmetry. apply existsb_exists. exists s. split; [assumption | apply String.eqb_refl].
Qed.

(** ** [InputStructure] *)

Lemma InputStructure_kwargs_validate base shape dims dt :
  Forall (str_ok base) dims -> In dt (DataType base) ->
  InputStructure.validate base (InputStructure_kwargs shape dims dt) =
  if (List.length shape <? 1)%nat
  then if (List.length dims <? 1)%nat
       then ValidationError [too_short; too_short]
       else ValidationError [too_short]
  else if (List.length dims <? 1)%nat
       then ValidationError [too_short]
       else InputStructure.validate_dimensions
              (InputStructure.Build_t shape dims dt).
Proof.
  intros Hdims Hdt.
  unfold InputStructure.validate, InputStructure_kwargs, model, required.
  cbn [get String.eqb Ascii.eqb Bool.eqb].
  rewrite (list_of_map 1 validate_Number dump_Number shape)
    by (apply Forall_forall; intros; apply validate_Number_dump).
  rewrite (list_of_map 1 (validate_str base) VStr dims)
    by (eapply Forall_impl; [|exact Hdims]; intros; now apply validate_str_VStr).
  rewrite (validate_DataType_VStr _ _ Hdt).
  destruct (List.length shape <? 1)%nat, (List.length dims <? 1)%nat; reflexivity.
Qed.

Lemma InputStructure_validate_Ok base v x :
  InputStructure.validate base v = Ok x ->
  List.length (InputStructure.shape x) = List.length (InputStructure.dim_order x)
  /\ 1 <= List.length (InputStructure.shape x)
  /\ Forall (str_ok base) (InputStructure.dim_order x)
  /\ In (InputStructure.data_type x) (DataType base).
Proof.
  destruct v; try discriminate. unfold InputStructure.validate, model.
  intros H. peel H. subst.
  field "shape" as (vs & _ & Hs). apply list_of_Ok in Hs as (ls & -> & Hs & Hn).
  field "dim_order" as (vd & _ & Hd). apply list_of_Ok in Hd as (ld & -> & Hd & _).
  field "data_type" as (vt & _ & Ht). apply validate_DataType_Ok in Ht as (-> & Ht).
  match goal with
  | V : InputStructure.validate_dimensions _ = Ok _ |- _ =>
      unfold InputStructure.validate_dimensions in V;
      cbn [InputStructure.shape InputStructure.dim_order] in V;
      match type of V with
      | context [Nat.eqb ?n ?m] => destruct (Nat.eqb_spec n m) as [E|E]
      end;
      [injection V as <- | discriminate]
  end.
  cbn. repeat split; auto.
  apply traverse_Ok in Hd. clear -Hd.
  induction Hd as [|v s ld ss Hv _ IH]; constructor; auto.
  apply validate_str_Ok in Hv. tauto.
Qed.

(** C1, as stated, at two empty lists: the lengths agree, and the call is
    rejected all the same, by [Field(min_length=1)].  So is a call with
    lists of one element each whose [data_type] is not of the enumeration:
    a field that fails on its own rejects the call before the lengths are
    compared. *)
Lemma InputStructure_empty_lists_rejected :
  ~ (fails (InputStructure.validate example_base
              (InputStructure_kwargs [] [] "float32")) = true
     <-> List.length (@nil Number) <> List.length (@nil string))
  /\ ~ (fails (InputStructure.validate example_base
                 (InputStructure_kwargs [NInt 1] ["batch"] "float128")) = true
        <-> List.length [NInt 1] <> List.length ["batch"]).
Proof. split; intros [H _]; apply H; reflexivity. Qed.

(** C1 (amended): for a call whose fields are each valid on their own, that
    is whose [shape] and [dim_order] both have at least one element, whose
    [dim_order] entries are strings the base model admits and whose
    [data_type] is a value of the [DataType] enumeration, construction fails
    if and only if the two lengths differ, and then with the error of
    [validate_dimensions]; every InputStructure that was constructed, from
    whatever input, has [shape] and [dim_order] of the same length. *)
Theorem InputStructure_fails_iff_length_mismatch base shape dims dt :
  1 <= List.length shape -> 1 <= List.length dims ->
  Forall (str_ok base) dims -> In dt (DataType base) ->
  (fails (InputStructure.validate base (InputStructure_kwargs shape dims dt)) = true
   <-> List.length shape <> List.length dims)
  /\ (List.length shape <> List.length dims ->
      InputStructure.validate base (InputStructure_kwargs shape dims dt) =
      ValidationError
        [value_error
           "Dimension order and shape must be of equal length for corresponding indices."])
  /\ (forall v x,
        InputStructure.validate base v = Ok x ->
        List.length (InputStructure.shape x)
        = List.length (InputStructure.dim_order x)).
Proof.
  intros Hs Hd Hok Hdt.
  rewrite (InputStructure_kwargs_validate base shape dims dt Hok Hdt).
  destruct (Nat.ltb_spec (List.length shape) 1); [lia|].
  destruct (Nat.ltb_spec (List.length dims) 1); [lia|].
  unfold InputStructure.validate_dimensions. cbn [InputStructure.shape InputStructure.dim_order].
  destruct (Nat.eqb_spec (List.length shape) (List.length dims)) as [E|E]; cbn [negb].
  - split; [split; [intros F; discriminate F | intros N; contradiction]|].
    split; [intros N; contradiction|].
    intros v x Hx. now apply InputStructure_validate_Ok in Hx.
  - split; [split; [intros _; exact E | reflexivity]|].
    split; [reflexivity|].
    intros v x Hx. now apply InputStructure_validate_Ok in Hx.
Qed.

Lemma InputStructure_fails_iff_length_mismatch_witness :
  fails (InputStructure.validate example_base
           (InputStructure_kwargs [NInt 1; NInt 3; NInt 64; NInt 64]
                                  ["batch"; "channel"; "height"] "float32")) = true
  <-> List.length [NInt 1; NInt 3; NInt 64; NInt 64]
      <> List.length ["batch"; "channel"; "height"].
Proof.
  refine (proj1 (InputStructure_fails_iff_length_mismatch example_base
                   [NInt 1; NInt 3; NInt 64; NInt 64]
                   ["batch"; "channel"; "height"] "float32" _ _ _ _)).
  - simpl; lia.
  - simpl; lia.
  - repeat constructor.
  - simpl; auto.
Defined.

(** ** Success of the combinators *)

Lemma succeeds_ap {A B} (rf : result (A -> B)) ra :
  succeeds (rf <*> ra) = succeeds rf && succeeds ra.
Proof. destruct rf, ra; reflexivity. Qed.

Lemma succeeds_eq {A B} (r : result A) (r' : result B) :
  (forall a, r = Ok a -> exists b, r' = Ok b) ->
  (forall b, r' = Ok b -> exists a, r = Ok a) ->
  succeeds r = succeeds r'.
Proof.
  intros H1 H2. destruct r as [a|e], r' as [b|e']; simpl; auto.
  - destruct (H1 a eq_refl) as (b & Hb). discriminate.
  - destruct (H2 b eq_refl) as (a & Ha). discriminate.
Qed.

(** ** Unions *)

Lemma union_Ok {A} (ms : list (value -> result A)) v a :
  union ms v = Ok a -> exists m, In m ms /\ m v = Ok a.
Proof.
  induction ms as [|m ms IH]; simpl; [discriminate|].
  destruct (m v) as [a0|e] eqn:E.
  - intros H. injection H as <-. exists m. split; [now left | assumption].
  - destruct (union ms v) as [a1|e']; [|discriminate].
    intros H. injection H as <-. destruct (IH eq_refl) as (m' & Hin & Hm').
    exists m'. split; [now right | assumption].
Qed.

(** When the members that accept agree, the union gives what they give. *)
Lemma union_agree {A} (ms : list (value -> result A)) v m a :
  In m ms -> m v = Ok a ->
  (forall m' a', In m' ms -> m' v = Ok a' -> a' = a) ->
  union ms v = Ok a.
Proof.
  induction ms as [|m0 ms IH]; simpl; [tauto|].
  intros Hin Hm Hall. destruct (m0 v) as [a0|e] eqn:E.
  - f_equal. apply (Hall m0 a0); [now left | exact E].
  - destruct Hin as [->|Hin]; [congruence|].
    rewrite IH; auto.
    intros m' a' Hin' Hm'. apply (Hall m' a'); [now right | exact Hm'].
Qed.

(** ** [ScalingObject] *)

Lemma tag_Ok lit v u : tag lit v = Ok u -> v = VStr lit.
Proof.
  destruct v; simpl; try discriminate.
  destruct (String.eqb_spec s lit); [now subst | discriminate].
Qed.

Lemma type_field_Ok d t lit u :
  get "type" d = Some (VStr t) ->
  with_default d "type" tt (tag lit) = Ok u -> t = lit.
Proof.
  unfold with_default. intros ->. intros H. apply tag_Ok in H. now injection H.
Qed.

Lemma type_field_succeeds d t lit :
  get "type" d = Some (VStr t) ->
  succeeds (with_default d "type" tt (tag lit)) = String.eqb t lit.
Proof.
  unfold with_default. intros ->. simpl. now destruct (String.eqb t lit).
Qed.

(** A member of the union that accepts a document with a [type] key is the
    class that key names. *)
Lemma Scaling_member_class base d t m s :
  In m (Scaling_members base) ->
  get "type" d = Some (VStr t) ->
  m (VDict d) = Ok s ->
  m = Scaling_class base t /\ Scaling_type s = t.
Proof.
  intros Hin Ht Hm. unfold Scaling_members in Hin. simpl in Hin.
  repeat (destruct Hin as [<-|Hin]); try contradiction;
    unfold validate_ScalingMinMax, validate_ScalingZScore, validate_ScalingClip,
      validate_ScalingClipMin, validate_ScalingClipMax, validate_ScalingOffset,
      validate_ScalingScale, validate_ScalingProcessingExpression, model in Hm;
    peel Hm;
    match goal with
    | T : with_default d "type" tt (tag _) = Ok _ |- _ =>
        apply (type_field_Ok d t _ _ Ht) in T
    end;
    subst; split; reflexivity.
Qed.

(** So at most one class accepts such a document. *)
Lemma Scaling_variant_unique base d t m m' s s' :
  In m (Scaling_members base) -> In m' (Scaling_members base) ->
  get "type" d = Some (VStr t) ->
  m (VDict d) = Ok s -> m' (VDict d) = Ok s' ->
  m = m' /\ s = s'.
Proof.
  intros Hin Hin' Ht Hm Hm'.
  destruct (Scaling_member_class base d t m s Hin Ht Hm) as (-> & _).
  destruct (Scaling_member_class base d t m' s' Hin' Ht Hm') as (-> & _).
  split; congruence.
Qed.

Lemma Scaling_type_known s : In (Scaling_type s) Scaling_types.
Proof. destruct s; simpl; tauto. Qed.

Lemma Scaling_class_member base t v s :
  Scaling_class base t v = Ok s -> In (Scaling_class base t) (Scaling_members base).
Proof.
  unfold Scaling_class, Scaling_members.
  repeat match goal with
         | |- context [String.eqb t ?lit] => destruct (String.eqb t lit)
         end; simpl; try tauto.
  discriminate.
Qed.

(** With a [type] key, the union accepts exactly what the named class does. *)
Lemma ScalingObject_by_class base d t s :
  get "type" d = Some (VStr t) ->
  validate_ScalingObject base (VDict d) = Ok (Some s)
  <-> Scaling_class base t (VDict d) = Ok s.
Proof.
  intros Ht. unfold validate_ScalingObject. cbn [optional]. split; intros H.
  - apply fmap_Ok in H as (s' & H & E). injection E as <-.
    apply union_Ok in H as (m & Hin & Hm).
    destruct (Scaling_member_class base d t m s Hin Ht Hm) as (<- & _). exact Hm.
  - rewrite (union_agree (Scaling_members base) (VDict d) (Scaling_class base t) s);
      [reflexivity | eapply Scaling_class_member; eauto | exact H |].
    intros m' s' Hin' Hm'.
    destruct (Scaling_member_class base d t m' s' Hin' Ht Hm') as (-> & _).
    congruence.
Qed.

Lemma ScalingObject_Ok_Some base d x :
  validate_ScalingObject base (VDict d) = Ok x -> exists s, x = Some s.
Proof.
  unfold validate_ScalingObject. cbn [optional]. intros H.
  apply fmap_Ok in H as (s & _ & ->). eauto.
Qed.

(** The class a known literal names asks for the fields [Scaling_required]
    lists, and for nothing else. *)
Lemma Scaling_class_required base d t :
  get "type" d = Some (VStr t) -> In t Scaling_types ->
  succeeds (Scaling_class base t (VDict d))
  = forallb (Scaling_field_ok base d) (Scaling_required t).
Proof.
  intros Ht Hin. unfold Scaling_types in Hin. simpl in Hin.
  repeat (destruct Hin as [<-|Hin]); try contradiction;
    cbn [Scaling_class Scaling_required String.eqb Ascii.eqb Bool.eqb];
    unfold validate_ScalingMinMax, validate_ScalingZScore, validate_ScalingClip,
      validate_ScalingClipMin, validate_ScalingClipMax, validate_ScalingOffset,
      validate_ScalingScale, validate_ScalingProcessingExpression, model;
    rewrite !succeeds_ap, (type_field_succeeds d _ _ Ht);
    unfold Scaling_field_ok, required, any;
    cbn [forallb String.eqb Ascii.eqb Bool.eqb succeeds andb];
    repeat match goal with
           | |- context [get ?k d] => destruct (get k d)
           end;
    cbn [succeeds andb];
    rewrite ?andb_true_r, ?andb_false_r; reflexivity.
Qed.

Lemma Scaling_member_type base d v m s :
  In m (Scaling_members base) ->
  get "type" d = Some v ->
  m (VDict d) = Ok s ->
  v = VStr (Scaling_type s).
Proof.
  intros Hin Hv Hm. unfold Scaling_members in Hin. simpl in Hin.
  repeat (destruct Hin as [<-|Hin]); try contradiction;
    unfold validate_ScalingMinMax, validate_ScalingZScore, validate_ScalingClip,
      validate_ScalingClipMin, validate_ScalingClipMax, validate_ScalingOffset,
      validate_ScalingScale, validate_ScalingProcessingExpression, model in Hm;
    peel Hm;
    match goal with
    | T : with_default d "type" tt (tag _) = Ok _ |- _ =>
        unfold with_default in T; rewrite Hv in T; apply tag_Ok in T
    end;
    subst; reflexivity.
Qed.

Lemma ScalingObject_Ok_type base d v x :
  get "type" d = Some v ->
  validate_ScalingObject base (VDict d) = Ok x ->
  exists s, x = Some s /\ v = VStr (Scaling_type s)
            /\ Scaling_class base (Scaling_type s) (VDict d) = Ok s.
Proof.
  intros Hv Hx. destruct (ScalingObject_Ok_Some _ _ _ Hx) as (s & ->).
  exists s. split; [reflexivity|].
  assert (Hu := Hx). unfold validate_ScalingObject in Hu. cbn [optional] in Hu.
  apply fmap_Ok in Hu as (s' & Hu & E). injection E as <-.
  apply union_Ok in Hu as (m & Hin & Hm).
  pose proof (Scaling_member_type base d v m s Hin Hv Hm) as ->.
  split; [reflexivity|].
  now apply (ScalingObject_by_class base d (Scaling_type s) s Hv).
Qed.

Lemma type_accepted_known base t : type_accepted base t -> In t Scaling_types.
Proof.
  intros (d & x & Ht & Hx).
  destruct (ScalingObject_Ok_type base d _ x Ht Hx) as (s & _ & E & _).
  injection E as ->. apply Scaling_type_known.
Qed.

(** C2, as stated, counts nine literals for [type]: no nine distinct strings
    are accepted there. *)
Lemma ScalingObject_no_nine_types :
  ~ exists tags : list string,
      NoDup tags /\ List.length tags = 9
      /\ forall t, In t tags -> type_accepted example_base t.
Proof.
  intros (tags & Hnd & Hlen & Hacc).
  assert (Hincl : incl tags Scaling_types)
    by (intros t Ht; apply (type_accepted_known example_base), Hacc, Ht).
  pose proof (NoDup_incl_length Hnd Hincl) as Hle.
  rewrite Hlen in Hle. simpl in Hle. lia.
Qed.

(** C2 (amended): a scaling object is selected by its [type] string, which
    must be one of the eight literals clip-min, clip-max, clip, min-max,
    z-score, offset, scale, processing.  A document whose [type] is one of
    them passes exactly when the fields required by that literal are there
    and of their type; a document whose [type] is anything else fails; and
    what passes is of the class its [type] names. *)
Theorem ScalingObject_type_selects_class base d v :
  get "type" d = Some v ->
  List.length Scaling_types = 8
  /\ (forall t, v = VStr t -> In t Scaling_types ->
       succeeds (validate_ScalingObject base (VDict d))
       = forallb (Scaling_field_ok base d) (Scaling_required t))
  /\ ((forall t, In t Scaling_types -> v <> VStr t) ->
      fails (validate_ScalingObject base (VDict d)) = true)
  /\ (forall x, validate_ScalingObject base (VDict d) = Ok x ->
       exists s, x = Some s /\ v = VStr (Scaling_type s)
                 /\ Scaling_class base (Scaling_type s) (VDict d) = Ok s).
Proof.
  intros Hv. split; [reflexivity|]. split; [|split].
  - intros t -> Hin. rewrite <- (Scaling_class_required base d t Hv Hin).
    apply succeeds_eq.
    + intros x Hx. destruct (ScalingObject_Ok_Some _ _ _ Hx) as (s & ->).
      exists s. now apply (ScalingObject_by_class base d t s Hv).
    + intros s Hs. exists (Some s). now apply (ScalingObject_by_class base d t s Hv).
  - intros Hnone. apply fails_not_Ok. intros x Hx.
    destruct (ScalingObject_Ok_type base d v x Hv Hx) as (s & _ & E & _).
    exact (Hnone (Scaling_type s) (Scaling_type_known s) E).
  - intros x Hx. exact (ScalingObject_Ok_type base d v x Hv Hx).
Qed.

Lemma ScalingObject_type_selects_class_witness :
  succeeds (validate_ScalingObject example_base
              (VDict [("type", VStr "min-max"); ("minimum", VInt 0);
                      ("maximum", VInt 1)])) = true
  /\ succeeds (validate_ScalingObject example_base
                 (VDict [("type", VStr "min-max"); ("minimum", VInt 0)])) = false
  /\ fails (validate_ScalingObject example_base
              (VDict [("type", VStr "bogus"); ("minimum", VInt 0);
                      ("maximum", VInt 1)])) = true.
Proof.
  split; [|split].
  - refine (proj1 (proj2 (ScalingObject_type_selects_class example_base
                            [("type", VStr "min-max"); ("minimum", VInt 0);
                             ("maximum", VInt 1)] (VStr "min-max") eq_refl))
                  "min-max" eq_refl _).
    simpl; tauto.
  - refine (proj1 (proj2 (ScalingObject_type_selects_class example_base
                            [("type", VStr "min-max"); ("minimum", VInt 0)]
                            (VStr "min-max") eq_refl))
                  "min-max" eq_refl _).
    simpl; tauto.
  - refine (proj1 (proj2 (proj2 (ScalingObject_type_selects_class example_base
                                   [("type", VStr "bogus"); ("minimum", VInt 0);
                                    ("maximum", VInt 1)] (VStr "bogus") eq_refl)))
                  _).
    intros t Hin E. injection E as <-. simpl in Hin.
    repeat (destruct Hin as [Hin|Hin]; [discriminate Hin|]). exact Hin.
Defined.

(** ** [ModelBand] *)

Lemma ModelBand_kwargs_validate base n f e :
  str_ok base n -> (forall s, f = Some s -> str_ok base s) ->
  ModelBand.validate base (ModelBand_kwargs n f e) =
  if xorb (is_some f) (is_set e)
  then ValidationError
         [value_error "Model band 'format' and 'expression' are mutually dependant."]
  else Ok (ModelBand.Build_t n f (or_None e)).
Proof.
  intros Hn Hf.
  unfold ModelBand.validate, ModelBand_kwargs, model, required, with_default.
  destruct f as [s|], e as [v|];
    cbn [app get String.eqb Ascii.eqb Bool.eqb optional];
    rewrite ?(validate_str_VStr base n Hn);
    try rewrite (validate_str_VStr base s (Hf s eq_refl));
    try destruct v; reflexivity.
Qed.

Lemma ModelBand_validate_Ok base v x :
  ModelBand.validate base v = Ok x ->
  str_ok base (ModelBand.name x)
  /\ (forall s, ModelBand.format x = Some s -> str_ok base s)
  /\ is_some (ModelBand.format x) = negb (is_None (ModelBand.expression x)).
Proof.
  destruct v; try discriminate. unfold ModelBand.validate, model.
  intros H. peel H. subst.
  field "name" as (vn & _ & Hn). apply validate_str_Ok in Hn as (_ & Hn).
  match goal with
  | V : ModelBand.validate_expression _ = Ok _ |- _ =>
      unfold ModelBand.validate_expression in V;
      cbn [ModelBand.format ModelBand.expression] in V
  end.
  match goal with
  | F : with_default _ "format" None _ = Ok ?o |- _ =>
      assert (Hf : forall s, o = Some s -> str_ok base s);
      [ unfold with_default in F; destruct (get "format" entries) as [vf|];
        [ apply optional_Ok in F as [(_ & ->)|(s' & F & ->)];
          [ discriminate
          | intros s E; injection E as <-; now apply validate_str_Ok in F ]
        | injection F as <-; discriminate ]
      | ]
  end.
  match goal with
  | V : (if ?c then _ else _) = Ok _ |- _ =>
      destruct c eqn:C; [discriminate | injection V as <-]
  end.
  cbn [ModelBand.name ModelBand.format ModelBand.expression].
  repeat split; auto.
  match goal with
  | |- is_some ?o = negb (is_None ?w) =>
      destruct o, w; simpl in *; try reflexivity; discriminate
  end.
Qed.

(** C3: a band is rejected when exactly one of [format] and [expression] is
    set, whatever else the document holds; a call with both set, or with
    neither, passes. *)
Theorem ModelBand_format_expression_dependent base n f e :
  str_ok base n -> (forall s, f = Some s -> str_ok base s) ->
  (forall d,
      xorb (is_set (get "format" d)) (is_set (get "expression" d)) = true ->
      fails (ModelBand.validate base (VDict d)) = true)
  /\ (xorb (is_some f) (is_set e) = true ->
      ModelBand.validate base (ModelBand_kwargs n f e) =
      ValidationError
        [value_error "Model band 'format' and 'expression' are mutually dependant."])
  /\ (xorb (is_some f) (is_set e) = false ->
      ModelBand.validate base (ModelBand_kwargs n f e) =
      Ok (ModelBand.Build_t n f (or_None e))).
Proof.
  intros Hn Hf. split; [|split].
  - intros d Hx. apply fails_not_Ok. intros x H.
    pose proof (ModelBand_validate_Ok base _ x H) as (_ & _ & Hdep).
    unfold ModelBand.validate, model in H. peel H. subst.
    match goal with
    | V : ModelBand.validate_expression _ = Ok _ |- _ =>
        unfold ModelBand.validate_expression in V;
        cbn [ModelBand.format ModelBand.expression] in V;
        match type of V with
        | (if ?c then _ else _) = _ => destruct c; [discriminate | injection V as <-]
        end
    end.
    cbn [ModelBand.format ModelBand.expression] in Hdep.
    repeat match goal with
           | F : with_default _ _ _ _ = Ok _ |- _ => unfold with_default in F
           end.
    destruct (get "format" d) as [vf|], (get "expression" d) as [ve|];
      repeat match goal with
             | F : optional _ _ = Ok _ |- _ =>
                 apply optional_Ok in F as [(-> & ->)|(s' & F & ->)]
             | F : validate_str _ _ = Ok _ |- _ =>
                 apply validate_str_Ok in F as (-> & _)
             | F : any _ = Ok _ |- _ => unfold any in F; injection F as <-
             | F : Ok _ = Ok _ |- _ => injection F as <-
             end;
      simpl in Hx, Hdep; try discriminate;
      try (destruct ve; simpl in Hx, Hdep; discriminate).
  - intros Hx. rewrite (ModelBand_kwargs_validate base n f e Hn Hf), Hx. reflexivity.
  - intros Hx. rewrite (ModelBand_kwargs_validate base n f e Hn Hf), Hx. reflexivity.
Qed.

Lemma ModelBand_format_expression_dependent_witness :
  ModelBand.validate example_base
    (ModelBand_kwargs "NDVI" (Some "rio-calc") (Some (VStr "(B08-B04)/(B08+B04)")))
  = Ok (ModelBand.Build_t "NDVI" (Some "rio-calc") (VStr "(B08-B04)/(B08+B04)"))
  /\ ModelBand.validate example_base (ModelBand_kwargs "NDVI" (Some "rio-calc") None)
     = ValidationError
         [value_error "Model band 'format' and 'expression' are mutually dependant."]
  /\ ModelBand.validate example_base (ModelBand_kwargs "B02" None None)
     = Ok (ModelBand.Build_t "B02" None VNone).
Proof.
  assert (Hn : forall n, str_ok example_base n)
    by (intros n; unfold str_ok; simpl; lia).
  split; [|split].
  - exact (proj2 (proj2 (ModelBand_format_expression_dependent example_base
             "NDVI" (Some "rio-calc") (Some (VStr "(B08-B04)/(B08+B04)"))
             (Hn _) (fun s _ => Hn s))) eq_refl).
  - exact (proj1 (proj2 (ModelBand_format_expression_dependent example_base
             "NDVI" (Some "rio-calc") None (Hn _) (fun s _ => Hn s))) eq_refl).
  - exact (proj2 (proj2 (ModelBand_format_expression_dependent example_base
             "B02" None None (Hn _) (fun s _ => Hn s))) eq_refl).
Defined.

(** C10, as stated, at the value [None]: with [format] given, the band is
    rejected. *)
Lemma ModelBand_expression_None_rejected :
  ~ (forall v,
        succeeds (ModelBand.validate example_base
                    (ModelBand_kwargs "NDVI" (Some "rio-calc") (Some v))) = true).
Proof. intros H. specialize (H VNone). discriminate H. Qed.

(** C10 (amended): [expression] accepts a value of any type other than
    [None]: with [format] set to a string, a band whose [expression] is any
    such value is constructed, and holds that value unchanged. *)
Theorem ModelBand_expression_any base n f v :
  str_ok base n -> str_ok base f -> v <> VNone ->
  ModelBand.validate base (ModelBand_kwargs n (Some f) (Some v))
  = Ok (ModelBand.Build_t n (Some f) v).
Proof.
  intros Hn Hf Hv.
  rewrite (ModelBand_kwargs_validate base n (Some f) (Some v) Hn)
    by (intros s E; injection E as <-; exact Hf).
  destruct v; try reflexivity. contradiction.
Qed.

Lemma ModelBand_expression_any_witness :
  ModelBand.validate example_base
    (ModelBand_kwargs "NDVI" (Some "rio-calc")
       (Some (VList [VInt 1; VFloat 0.5; VDict [("op", VStr "ndvi")]])))
  = Ok (ModelBand.Build_t "NDVI" (Some "rio-calc")
          (VList [VInt 1; VFloat 0.5; VDict [("op", VStr "ndvi")]])).
Proof.
  apply (ModelBand_expression_any example_base "NDVI" "rio-calc").
  - unfold str_ok; simpl; lia.
  - unfold str_ok; simpl; lia.
  - discriminate.
Defined.

(** C8, as stated, at the empty name: [input.py] puts no minimum length on
    [name], and where the base model sets none either, as pydantic does by
    default, the band is constructed. *)
Lemma ModelBand_empty_name_accepted :
  ~ (fails (ModelBand.validate example_base (ModelBand_kwargs "" None None)) = true).
Proof. discriminate. Qed.

(** C8 (amended): [name] is required: a document without it is rejected.
    It need not be non-empty: the field adds no constraint of its own, so
    every string the base model admits is accepted as a name, the empty
    string among them when the base sets no minimum length. *)
Theorem ModelBand_name_required base :
  (forall d, get "name" d = None ->
             fails (ModelBand.validate base (VDict d)) = true)
  /\ (forall n, str_ok base n ->
                ModelBand.validate base (ModelBand_kwargs n None None)
                = Ok (ModelBand.Build_t n None VNone))
  /\ (str_min_length base = 0 ->
      ModelBand.validate base (ModelBand_kwargs "" None None)
      = Ok (ModelBand.Build_t "" None VNone)).
Proof.
  assert (Hacc : forall n, str_ok base n ->
            ModelBand.validate base (ModelBand_kwargs n None None)
            = Ok (ModelBand.Build_t n None VNone)).
  { intros n Hn.
    rewrite (ModelBand_kwargs_validate base n None None Hn) by discriminate.
    reflexivity. }
  split; [|split].
  - intros d H. apply fails_not_Ok. intros x Hx.
    unfold ModelBand.validate, model in Hx. peel Hx. subst.
    field "name" as (vn & Hget & _). congruence.
  - exact Hacc.
  - intros H0. apply Hacc. unfold str_ok. rewrite H0. apply Nat.le_0_l.
Qed.

Lemma ModelBand_name_required_witness :
  fails (ModelBand.validate example_base
           (VDict [("format", VStr "rio-calc"); ("expression", VStr "B08-B04")])) = true
  /\ ModelBand.validate example_base (VDict [("name", VStr "")])
     = Ok (ModelBand.Build_t "" None VNone).
Proof.
  split.
  - exact (proj1 (ModelBand_name_required example_base)
             [("format", VStr "rio-calc"); ("expression", VStr "B08-B04")] eq_refl).
  - exact (proj2 (proj2 (ModelBand_name_required example_base)) eq_refl).
Defined.

(** ** [ResizeType] *)

Lemma literal_Ok {A} (all : list A) (str : A -> string) s a :
  literal all str (VStr s) = Ok a -> In a all /\ str a = s.
Proof.
  simpl. destruct (find _ all) as [a'|] eqn:E; [|discriminate].
  intros H. injection H as <-. apply find_some in E as (Hin & Heq).
  now apply String.eqb_eq in Heq.
Qed.

(** C7: [ResizeType] is a closed enumeration.  [None] and each of the ten
    literals are accepted, "crop" among them, and every other string is
    rejected with a validation error. *)
Theorem ResizeType_closed_enumeration (s : string) :
  map Resize_str Resize_literals =
    ["crop"; "pad"; "interpolation-nearest"; "interpolation-linear";
     "interpolation-cubic"; "interpolation-area"; "interpolation-lanczos4";
     "interpolation-max"; "wrap-fill-outliers"; "wrap-inverse-map"]
  /\ validate_ResizeType VNone = Ok None
  /\ validate_ResizeType (VStr "crop") = Ok (Some crop)
  /\ fails (validate_ResizeType (VStr "bogus-mode")) = true
  /\ (In s (map Resize_str Resize_literals) ->
      exists r, Resize_str r = s /\ validate_ResizeType (VStr s) = Ok (Some r))
  /\ (~ In s (map Resize_str Resize_literals) ->
      validate_ResizeType (VStr s) = ValidationError [literal_error]).
Proof.
  repeat (split; [reflexivity|]). split.
  - intros Hin. simpl in Hin.
    repeat (destruct Hin as [<-|Hin];
            [eexists; split; [|reflexivity]; reflexivity|]).
    contradiction.
  - intros Hnot. unfold validate_ResizeType. cbn [optional].
    destruct (literal Resize_literals Resize_str (VStr s)) as [r|e] eqn:E.
    + apply literal_Ok in E as (Hin & <-). exfalso. apply Hnot.
      now apply in_map.
    + unfold literal in E.
      match type of E with
      | context [find ?f ?l] => destruct (find f l); [discriminate|]
      end.
      injection E as <-. reflexivity.
Qed.

(** ** Serialisation *)

(** C5: a dumped [ModelInput] has the keys [scaling] and [resize_type] only
    when those fields are not [None], and always has the key
    [pre_processing_function], with value null when the field is [None]; a
    dumped [ModelBand] has the keys [format] and [expression] only when
    they are not [None]. *)
Theorem model_dump_omits_absent_fields (x : ModelInput.t) (b : ModelBand.t) :
  keys (ModelInput.model_dump x) =
    (["name"; "bands"; "input"]
     ++ (if is_some (ModelInput.scaling x) then ["scaling"] else [])
     ++ (if is_some (ModelInput.resize_type x) then ["resize_type"] else [])
     ++ ["pre_processing_function"])%list
  /\ (ModelInput.pre_processing_function x = None <->
      item "pre_processing_function" (ModelInput.model_dump x) = Some VNone)
  /\ keys (ModelBand.model_dump b) =
       (["name"]
        ++ (if is_some (ModelBand.format b) then ["format"] else [])
        ++ (if is_None (ModelBand.expression b) then [] else ["expression"]))%list.
Proof.
  destruct x as [n bs i sc rt pp], b as [bn bf be].
  unfold ModelInput.model_dump, ModelBand.model_dump, emit, omit_if_none.
  cbn [ModelInput.name ModelInput.bands ModelInput.input ModelInput.scaling
       ModelInput.resize_type ModelInput.pre_processing_function
       ModelBand.name ModelBand.format ModelBand.expression].
  split; [|split].
  - destruct sc, rt; reflexivity.
  - destruct sc, rt, pp; cbn; split; intros H; try reflexivity; discriminate.
  - destruct bf, be; reflexivity.
Qed.

(** ** Serialise, then parse *)

Lemma InputStructure_roundtrip base v x :
  InputStructure.validate base v = Ok x ->
  InputStructure.validate base (InputStructure.model_dump x) = Ok x.
Proof.
  intros H. apply InputStructure_validate_Ok in H as (Hlen & Hpos & Hstr & Hdt).
  destruct x as [sh dims dt]. cbn [InputStructure.shape InputStructure.dim_order
                                     InputStructure.data_type] in *.
  change (InputStructure.model_dump (InputStructure.Build_t sh dims dt))
    with (InputStructure_kwargs sh dims dt).
  rewrite (InputStructure_kwargs_validate base sh dims dt Hstr Hdt).
  destruct (Nat.ltb_spec (List.length sh) 1); [lia|].
  destruct (Nat.ltb_spec (List.length dims) 1); [lia|].
  unfold InputStructure.validate_dimensions. cbn [InputStructure.shape InputStructure.dim_order].
  rewrite Hlen, Nat.eqb_refl. reflexivity.
Qed.

Lemma ModelBand_roundtrip base v x :
  ModelBand.validate base v = Ok x ->
  ModelBand.validate base (ModelBand.model_dump x) = Ok x.
Proof.
  intros H. apply ModelBand_validate_Ok in H as (Hn & Hf & Hdep).
  destruct x as [n f e]. cbn [ModelBand.name ModelBand.format ModelBand.expression] in *.
  unfold ModelBand.model_dump, ModelBand.validate, model, required, with_default,
    emit, omit_if_none.
  cbn [ModelBand.name ModelBand.format ModelBand.expression].
  destruct f as [s|], e; simpl in Hdep; try discriminate;
    cbn [app get String.eqb Ascii.eqb Bool.eqb optional dump_option is_None];
    rewrite ?(validate_str_VStr base n Hn);
    try rewrite (validate_str_VStr base s (Hf s eq_refl));
    reflexivity.
Qed.

Lemma ProcessingExpression_validate_Ok base v x :
  ProcessingExpression.validate base v = Ok x ->
  str_ok base (ProcessingExpression.format x).
Proof.
  destruct v; try discriminate. unfold ProcessingExpression.validate, model.
  intros H. peel H. subst.
  field "format" as (vf & _ & Hf). now apply validate_str_Ok in Hf.
Qed.

Lemma ProcessingExpression_roundtrip base v x :
  ProcessingExpression.validate base v = Ok x ->
  ProcessingExpression.validate base (ProcessingExpression.model_dump x) = Ok x.
Proof.
  intros H. apply ProcessingExpression_validate_Ok in H.
  destruct x as [f e]. cbn [ProcessingExpression.format] in H.
  unfold ProcessingExpression.model_dump, ProcessingExpression.validate, model,
    required, emit.
  cbn [ProcessingExpression.format ProcessingExpression.expression
       app get String.eqb Ascii.eqb Bool.eqb].
  rewrite (validate_str_VStr base f H). reflexivity.
Qed.

Lemma ResizeType_roundtrip r :
  validate_ResizeType (dump_ResizeType r) = Ok r.
Proof. destruct r as [[]|]; reflexivity. Qed.

(** The [format] of a processing scaling that passed obeys the string rule. *)
Lemma Scaling_validate_str_ok base v f e :
  validate_ScalingObject base v = Ok (Some (ScalingProcessingExpression f e)) ->
  str_ok base f.
Proof.
  unfold validate_ScalingObject. intros H.
  apply optional_Ok in H as [(_ & E)|(s & H & E)]; [discriminate|].
  injection E as <-. apply union_Ok in H as (m & Hin & Hm).
  unfold Scaling_members in Hin. simpl in Hin.
  repeat (destruct Hin as [<-|Hin]); try contradiction;
    destruct v; try discriminate;
    unfold validate_ScalingMinMax, validate_ScalingZScore, validate_ScalingClip,
      validate_ScalingClipMin, validate_ScalingClipMax, validate_ScalingOffset,
      validate_ScalingScale, validate_ScalingProcessingExpression, model in Hm;
    peel Hm; subst; try discriminate.
  match goal with
  | E : ScalingProcessingExpression _ _ = ScalingProcessingExpression _ _ |- _ =>
      injection E as <- <-
  end.
  field "format" as (vf & _ & Hf). now apply validate_str_Ok in Hf.
Qed.

Lemma Scaling_class_dump base s :
  (forall f e, s = ScalingProcessingExpression f e -> str_ok base f) ->
  Scaling_class base (Scaling_type s) (dump_Scaling s) = Ok s.
Proof.
  intros Hf. destruct s;
    cbn [Scaling_type Scaling_class String.eqb Ascii.eqb Bool.eqb dump_Scaling];
    unfold validate_ScalingMinMax, validate_ScalingZScore, validate_ScalingClip,
      validate_ScalingClipMin, validate_ScalingClipMax, validate_ScalingOffset,
      validate_ScalingScale, validate_ScalingProcessingExpression, model,
      required, with_default, emit;
    cbn [app get String.eqb Ascii.eqb Bool.eqb tag];
    rewrite ?validate_Number_dump;
    try rewrite (validate_str_VStr base format (Hf _ _ eq_refl));
    reflexivity.
Qed.

Lemma ScalingObject_roundtrip base v o :
  validate_ScalingObject base v = Ok o ->
  validate_ScalingObject base (dump_ScalingObject o) = Ok o.
Proof.
  intros H. destruct o as [s|]; [|reflexivity].
  cbn [dump_ScalingObject dump_option].
  assert (Hs : Scaling_class base (Scaling_type s) (dump_Scaling s) = Ok s).
  { apply Scaling_class_dump. intros f e ->.
    exact (Scaling_validate_str_ok base v f e H). }
  destruct (dump_Scaling s) as [| | | | | |d] eqn:Ed;
    try (destruct s; discriminate Ed).
  apply (ScalingObject_by_class base d (Scaling_type s) s); [|exact Hs].
  destruct s; injection Ed as <-; reflexivity.
Qed.

Lemma band_roundtrip base v b :
  validate_band base v = Ok b ->
  validate_band base (dump_band b) = Ok b.
Proof.
  unfold validate_band. cbn [union]. intros H.
  destruct (validate_str base v) as [s|e] eqn:Es; cbn [fmap] in H.
  - injection H as <-. apply validate_str_Ok in Es as (_ & Hs).
    cbn [dump_band]. rewrite (validate_str_VStr base s Hs). reflexivity.
  - destruct (ModelBand.validate base v) as [m|e'] eqn:Em; cbn [fmap] in H;
      [|discriminate].
    injection H as <-. cbn [dump_band].
    rewrite (ModelBand_roundtrip base v m Em).
    unfold ModelBand.model_dump. reflexivity.
Qed.

Lemma traverse_Ok_roundtrip {A} (validate : value -> result A) (dump : A -> value) l xs :
  (forall v a, validate v = Ok a -> validate (dump a) = Ok a) ->
  traverse validate l = Ok xs ->
  Forall (fun a => validate (dump a) = Ok a) xs.
Proof.
  intros Hrt H. apply traverse_Ok in H.
  induction H as [|v a l xs Hv _ IH]; constructor; eauto.
Qed.

(** A dumped [ModelInput] parses back to itself as soon as its parts do. *)
Lemma ModelInput_dump_validate base x :
  str_ok base (ModelInput.name x) ->
  Forall (fun b => validate_band base (dump_band b) = Ok b) (ModelInput.bands x) ->
  InputStructure.validate base (InputStructure.model_dump (ModelInput.input x))
  = Ok (ModelInput.input x) ->
  (forall l, ModelInput.scaling x = Some l ->
             Forall (fun o => validate_ScalingObject base (dump_ScalingObject o) = Ok o) l) ->
  (forall p, ModelInput.pre_processing_function x = Some p ->
             ProcessingExpression.validate base (ProcessingExpression.model_dump p) = Ok p) ->
  ModelInput.validate base (ModelInput.model_dump x) = Ok x.
Proof.
  destruct x as [n bs i sc rt pp].
  cbn [ModelInput.name ModelInput.bands ModelInput.input ModelInput.scaling
       ModelInput.resize_type ModelInput.pre_processing_function].
  intros Hn Hbs Hi Hsc Hpp.
  pose proof (ResizeType_roundtrip rt) as Hrt.
  assert (Hb : list_of 0 (validate_band base) (VList (map dump_band bs)) = Ok bs)
    by (rewrite (list_of_map 0 _ _ bs Hbs); reflexivity).
  unfold ModelInput.model_dump.
  cbn [ModelInput.name ModelInput.bands ModelInput.input ModelInput.scaling
       ModelInput.resize_type ModelInput.pre_processing_function].
  set (vi := InputStructure.model_dump i) in *.
  set (vb := VList (map dump_band bs)) in *.
  unfold ModelInput.validate, model, required, with_default, emit, omit_if_none.
  destruct sc as [l|], rt as [r|], pp as [p|];
    cbn [dump_option dump_ResizeType is_None app get String.eqb Ascii.eqb Bool.eqb] in *;
    rewrite (validate_str_VStr base n Hn), Hb, Hi, ?Hrt;
    cbn [optional];
    try rewrite (list_of_map 0 _ _ l (Hsc l eq_refl));
    try rewrite (optional_not_None _ _ p (Hpp p eq_refl) eq_refl);
    reflexivity.
Qed.

(** C4: what validation accepted is given back by parsing its dump: the
    whole [ModelInput], and within it the [input] structure, every element of
    [bands] at its place, be it a plain string or a [ModelBand], and every
    entry of [scaling]. *)
Theorem ModelInput_roundtrip base v x :
  ModelInput.validate base v = Ok x ->
  ModelInput.validate base (ModelInput.model_dump x) = Ok x
  /\ list_of 0 (validate_band base) (VList (map dump_band (ModelInput.bands x)))
     = Ok (ModelInput.bands x)
  /\ InputStructure.validate base (InputStructure.model_dump (ModelInput.input x))
     = Ok (ModelInput.input x)
  /\ (forall l, ModelInput.scaling x = Some l ->
        list_of 0 (validate_ScalingObject base) (VList (map dump_ScalingObject l))
        = Ok l).
Proof.
  destruct v; try discriminate. unfold ModelInput.validate, model.
  intros H. peel H. subst.
  cbn [ModelInput.name ModelInput.bands ModelInput.input ModelInput.scaling
       ModelInput.resize_type ModelInput.pre_processing_function].
  field "name" as (vn & _ & Hn). apply validate_str_Ok in Hn as (_ & Hn).
  field "bands" as (vb & _ & Hb). apply list_of_Ok in Hb as (lb & _ & Hb & _).
  apply (traverse_Ok_roundtrip _ dump_band _ _ (band_roundtrip base)) in Hb.
  field "input" as (vi & _ & Hi). apply InputStructure_roundtrip in Hi.
  match goal with
  | S : with_default _ "scaling" None _ = Ok ?sc |- _ =>
      assert (Hsc : forall l, sc = Some l ->
                Forall (fun o => validate_ScalingObject base (dump_ScalingObject o) = Ok o) l);
      [ unfold with_default in S; destruct (get "scaling" entries) as [vs|];
        [ apply optional_Ok in S as [(_ & ->)|(l' & S & ->)];
          [ discriminate
          | intros l E; injection E as <-;
            apply list_of_Ok in S as (ls & _ & S & _);
            exact (traverse_Ok_roundtrip _ dump_ScalingObject _ _
                     (ScalingObject_roundtrip base) S) ]
        | injection S as <-; discriminate ]
      | ]
  end.
  match goal with
  | P : with_default _ "pre_processing_function" None _ = Ok ?pp |- _ =>
      assert (Hpp : forall p, pp = Some p ->
                ProcessingExpression.validate base (ProcessingExpression.model_dump p) = Ok p);
      [ unfold with_default in P;
        destruct (get "pre_processing_function" entries) as [vp|];
        [ apply optional_Ok in P as [(_ & ->)|(p' & P & ->)];
          [ discriminate
          | intros p E; injection E as <-;
            exact (ProcessingExpression_roundtrip base _ _ P) ]
        | injection P as <-; discriminate ]
      | ]
  end.
  split; [|split; [|split]].
  - apply ModelInput_dump_validate; assumption.
  - rewrite (list_of_map 0 _ _ _ Hb). reflexivity.
  - exact Hi.
  - intros l E. rewrite (list_of_map 0 _ _ _ (Hsc l E)). reflexivity.
Qed.

Lemma ModelInput_roundtrip_witness :
  ModelInput.validate example_base (ModelInput.model_dump example_model)
  = Ok example_model
  /\ list_of 0 (validate_band example_base)
       (VList (map dump_band (ModelInput.bands example_model)))
     = Ok (ModelInput.bands example_model).
Proof.
  pose proof (ModelInput_roundtrip example_base example_document example_model
                eq_refl) as (H1 & H2 & _).
  exact (conj H1 H2).
Defined.

(** ** [ModelInput]: what is not checked *)

(** C6: the fields of a [ModelInput] are validated each on its own.  Bands,
    an input structure and scaling entries that are valid separately make a
    valid model input whatever their lengths, with [scaling] given or left
    out, and with band entries repeated. *)
Theorem ModelInput_no_cross_field_validation
        base n (bs : list band) i (sc : list ScalingObject) :
  str_ok base n ->
  Forall (fun b => validate_band base (dump_band b) = Ok b) bs ->
  InputStructure.validate base (InputStructure.model_dump i) = Ok i ->
  Forall (fun o => validate_ScalingObject base (dump_ScalingObject o) = Ok o) sc ->
  ModelInput.validate base
    (ModelInput.model_dump (ModelInput.Build_t n bs i (Some sc) None None))
  = Ok (ModelInput.Build_t n bs i (Some sc) None None)
  /\ ModelInput.validate base
       (ModelInput.model_dump (ModelInput.Build_t n bs i None None None))
     = Ok (ModelInput.Build_t n bs i None None None)
  /\ ModelInput.validate base
       (ModelInput.model_dump (ModelInput.Build_t n (bs ++ bs) i (Some sc) None None))
     = Ok (ModelInput.Build_t n (bs ++ bs) i (Some sc) None None).
Proof.
  intros Hn Hbs Hi Hsc.
  split; [|split]; apply ModelInput_dump_validate;
    cbn [ModelInput.name ModelInput.bands ModelInput.input ModelInput.scaling
         ModelInput.pre_processing_function];
    auto; try discriminate.
  - intros l E. injection E as <-. exact Hsc.
  - apply Forall_app. split; exact Hbs.
  - intros l E. injection E as <-. exact Hsc.
Qed.

Lemma ModelInput_no_cross_field_validation_witness :
  let bs := [Named "B04"; Named "B04"; Named "B08"] in
  let i := InputStructure.Build_t [NInt 1; NInt 5; NInt 64; NInt 64]
                                  ["batch"; "channel"; "height"; "width"]
                                  "uint8" in
  let sc := [Some (ScalingOffset (NInt 3))] in
  ModelInput.validate example_base
    (ModelInput.model_dump (ModelInput.Build_t "in" bs i (Some sc) None None))
  = Ok (ModelInput.Build_t "in" bs i (Some sc) None None)
  /\ List.length bs = 3
  /\ List.length (InputStructure.shape i) = 4
  /\ List.length sc = 1.
Proof.
  intros bs i sc. split; [|repeat split].
  refine (proj1 (ModelInput_no_cross_field_validation example_base "in" bs i sc
                   _ _ eq_refl _)).
  - unfold str_ok; simpl; lia.
  - repeat constructor.
  - repeat constructor.
Defined.

Lemma get_set_eq key v d : get key (set key v d) = Some v.
Proof.
  induction d as [|[k w] d IH]; simpl.
  - now rewrite String.eqb_refl.
  - destruct (String.eqb k key) eqn:E; simpl; rewrite E; auto.
Qed.

Lemma get_set_neq key key' v d :
  String.eqb key key' = false -> get key' (set key v d) = get key' d.
Proof.
  intros Hne. induction d as [|[k w] d IH]; simpl.
  - now rewrite Hne.
  - destruct (String.eqb k key) eqn:E; simpl.
    + apply String.eqb_eq in E. subst k. now rewrite Hne.
    + destruct (String.eqb k key'); auto.
Qed.

(** C9: a model input that is valid stays valid when its [bands] are
    replaced by the empty sequence. *)
Theorem ModelInput_empty_bands base d x :
  ModelInput.validate base (VDict d) = Ok x ->
  ModelInput.validate base (VDict (set "bands" (VList []) d))
  = Ok (ModelInput.Build_t (ModelInput.name x) [] (ModelInput.input x)
          (ModelInput.scaling x) (ModelInput.resize_type x)
          (ModelInput.pre_processing_function x)).
Proof.
  unfold ModelInput.validate, model, required, with_default.
  rewrite get_set_eq, !get_set_neq by reflexivity.
  intros H. peel H. subst.
  repeat match goal with
         | F : _ = Ok _ |- _ => rewrite F; clear F
         end.
  reflexivity.
Qed.

Lemma ModelInput_empty_bands_witness :
  exists x,
    ModelInput.validate example_base
      (VDict [("name", VStr "sentinel");
              ("bands", VList []);
              ("input",
               InputStructure_kwargs [NInt 1; NInt 3] ["batch"; "channel"] "uint8")])
    = Ok x
    /\ ModelInput.bands x = [].
Proof.
  eexists. split.
  - exact (ModelInput_empty_bands example_base
             [("name", VStr "sentinel");
              ("bands", VList [VStr "B01"]);
              ("input",
               InputStructure_kwargs [NInt 1; NInt 3] ["batch"; "channel"] "uint8")]
             _ eq_refl).
  - reflexivity.
Defined.

(** * Further properties of the schema *)

(** ** [InputStructure] *)

(** X1: whatever it was built from, an [InputStructure] has at least one
    dimension, as many names as dimensions, and a [data_type] of the
    enumeration. *)
Theorem InputStructure_invariant base v x :
  InputStructure.validate base v = Ok x ->
  1 <= List.length (InputStructure.shape x)
  /\ 1 <= List.length (InputStructure.dim_order x)
  /\ In (InputStructure.data_type x) (DataType base)
  /\ Forall (str_ok base) (InputStructure.dim_order x).
Proof.
  intros H. apply InputStructure_validate_Ok in H as (Hlen & Hpos & Hstr & Hdt).
  rewrite <- Hlen. auto.
Qed.

Lemma InputStructure_invariant_witness :
  1 <= List.length (InputStructure.shape (ModelInput.input example_model))
  /\ 1 <= List.length (InputStructure.dim_order (ModelInput.input example_model))
  /\ In "float32" (DataType example_base)
  /\ Forall (str_ok example_base) ["batch"; "channel"; "height"; "width"].
Proof.
  exact (InputStructure_invariant example_base
           (InputStructure_kwargs [NInt (-1); NInt 3; NInt 64; NFloat 64.5]
                                  ["batch"; "channel"; "height"; "width"] "float32")
           (ModelInput.input example_model) eq_refl).
Defined.

(** X2: none of the three fields of an [InputStructure] has a default, and
    [data_type] is closed: a document without [shape], without [dim_order] or
    without [data_type], or with a [data_type] outside the enumeration, is
    rejected. *)
Theorem InputStructure_fields_required base d :
  get "shape" d = None \/ get "dim_order" d = None \/ get "data_type" d = None
  \/ (exists s, get "data_type" d = Some (VStr s) /\ ~ In s (DataType base)) ->
  fails (InputStructure.validate base (VDict d)) = true.
Proof.
  intros H. apply fails_not_Ok. intros x Hx.
  unfold InputStructure.validate, model in Hx. peel Hx. subst.
  field "shape" as (vs & Gs & _).
  field "dim_order" as (vd & Gd & _).
  field "data_type" as (vt & Gt & Ht).
  destruct H as [H|[H|[H|(s & H & Hs)]]]; try congruence.
  rewrite H in Gt. injection Gt as <-.
  apply validate_DataType_Ok in Ht as (E & Hin). injection E as <-. contradiction.
Qed.

Lemma InputStructure_fields_required_witness :
  fails (InputStructure.validate example_base
           (VDict [("shape", VList [VInt 1]); ("dim_order", VList [VStr "batch"])])) = true
  /\ fails (InputStructure.validate example_base
              (InputStructure_kwargs [NInt 1] ["batch"] "float128")) = true.
Proof.
  split; apply InputStructure_fields_required.
  - right. right. left. reflexivity.
  - right. right. right. exists "float128". split; [reflexivity|].
    simpl. intros [H|[H|[]]]; discriminate H.
Defined.

(** ** [ScalingObject] *)

Lemma succeeds_union {A} (ms : list (value -> result A)) v :
  succeeds (union ms v) = existsb (fun m => succeeds (m v)) ms.
Proof.
  induction ms as [|m ms IH]; simpl; [reflexivity|].
  destruct (m v); simpl; [reflexivity|].
  rewrite <- IH. destruct (union ms v); reflexivity.
Qed.

Lemma succeeds_optional_dict {A} (validate : value -> result A) d :
  succeeds (optional validate (VDict d)) = succeeds (validate (VDict d)).
Proof. simpl. destruct (validate (VDict d)); reflexivity. Qed.

Lemma ScalingObject_dump_validate base s :
  (forall f e, s = ScalingProcessingExpression f e -> str_ok base f) ->
  validate_ScalingObject base (dump_Scaling s) = Ok (Some s).
Proof.
  intros Hf. pose proof (Scaling_class_dump base s Hf) as Hs.
  destruct (dump_Scaling s) as [| | | | | |d] eqn:Ed;
    try (destruct s; discriminate Ed).
  apply (ScalingObject_by_class base d (Scaling_type s) s); [|exact Hs].
  destruct s; injection Ed as <-; reflexivity.
Qed.

(** X3: the numbers of a scaling object are not constrained: for every
    numeric class and every numbers, in whatever order or of whatever sign, the
    document with those numbers is accepted and yields them unchanged.  No
    [minimum <= maximum] and no [stddev <> 0] is asked for. *)
Theorem Scaling_numbers_unconstrained base s :
  Scaling_type s <> "processing" ->
  validate_ScalingObject base (dump_Scaling s) = Ok (Some s).
Proof.
  intros Hs. apply ScalingObject_dump_validate.
  intros f e ->. exfalso. apply Hs. reflexivity.
Qed.

Lemma Scaling_numbers_unconstrained_witness :
  validate_ScalingObject example_base
    (VDict [("type", VStr "clip"); ("minimum", VInt 10); ("maximum", VInt (-10))])
  = Ok (Some (ScalingClip (NInt 10) (NInt (-10))))
  /\ validate_ScalingObject example_base
       (VDict [("type", VStr "z-score"); ("mean", VFloat 0.5); ("stddev", VInt 0)])
     = Ok (Some (ScalingZScore (NFloat 0.5) (NInt 0))).
Proof.
  split.
  - apply (Scaling_numbers_unconstrained example_base
             (ScalingClip (NInt 10) (NInt (-10)))). discriminate.
  - apply (Scaling_numbers_unconstrained example_base
             (ScalingZScore (NFloat 0.5) (NInt 0))). discriminate.
Defined.

Lemma required_Number_ok base d key :
  String.eqb key "format" = false -> String.eqb key "expression" = false ->
  succeeds (required d key validate_Number) = Scaling_field_ok base d key.
Proof.
  intros Hf He. unfold required, Scaling_field_ok.
  destruct (get key d); [|reflexivity]. now rewrite Hf, He.
Qed.

Lemma required_format_ok base d :
  succeeds (required d "format" (validate_str base)) = Scaling_field_ok base d "format".
Proof. unfold required, Scaling_field_ok. destruct (get "format" d); reflexivity. Qed.

Lemma required_expression_ok base d :
  succeeds (required d "expression" any) = Scaling_field_ok base d "expression".
Proof. unfold required, Scaling_field_ok. destruct (get "expression" d); reflexivity. Qed.

(** X4: the [type] key may be left out, each class giving it a default: a
    scaling document without [type] is accepted exactly when the required
    fields of at least one of the eight classes are there and of their
    type. *)
Theorem ScalingObject_type_optional base d :
  get "type" d = None ->
  succeeds (validate_ScalingObject base (VDict d))
  = existsb (fun t => forallb (Scaling_field_ok base d) (Scaling_required t))
            Scaling_types.
Proof.
  intros Ht.
  transitivity (succeeds (union (Scaling_members base) (VDict d)));
    [exact (succeeds_optional_dict (union (Scaling_members base)) d)|].
  rewrite succeeds_union.
  unfold Scaling_members, Scaling_types.
  cbn [existsb forallb Scaling_required String.eqb Ascii.eqb Bool.eqb].
  unfold validate_ScalingMinMax, validate_ScalingZScore, validate_ScalingClip,
    validate_ScalingClipMin, validate_ScalingClipMax, validate_ScalingOffset,
    validate_ScalingScale, validate_ScalingProcessingExpression, model.
  rewrite !succeeds_ap. unfold with_default. rewrite Ht.
  rewrite !(required_Number_ok base) by reflexivity.
  rewrite (required_format_ok base d), (required_expression_ok base d).
  cbn [succeeds].
  destruct (Scaling_field_ok base d "minimum"),
           (Scaling_field_ok base d "maximum"),
           (Scaling_field_ok base d "mean"),
           (Scaling_field_ok base d "stddev"),
           (Scaling_field_ok base d "value"),
           (Scaling_field_ok base d "format"),
           (Scaling_field_ok base d "expression"); reflexivity.
Qed.

Lemma ScalingObject_type_optional_witness :
  succeeds (validate_ScalingObject example_base
              (VDict [("mean", VInt 0); ("stddev", VInt 1)])) = true
  /\ succeeds (validate_ScalingObject example_base
                 (VDict [("mean", VInt 0)])) = false.
Proof.
  split.
  - exact (ScalingObject_type_optional example_base
             [("mean", VInt 0); ("stddev", VInt 1)] eq_refl).
  - exact (ScalingObject_type_optional example_base [("mean", VInt 0)] eq_refl).
Defined.

(** ** [ResizeType] *)

(** X5: a value of any kind is accepted as [ResizeType] exactly when it is
    null or the string of one of the ten literals, and the literal accepted is
    the one with that string: numbers, lists and objects are rejected like
    unknown strings, and no two literals share a string. *)
Theorem ResizeType_accepts_exactly (v : value) (r : ResizeType) :
  validate_ResizeType v = Ok r <-> v = dump_ResizeType r.
Proof.
  split.
  - intros H. unfold validate_ResizeType in H.
    apply optional_Ok in H as [(-> & ->)|(a & H & ->)]; [reflexivity|].
    destruct v; try discriminate H.
    apply literal_Ok in H as (_ & <-). reflexivity.
  - intros ->. apply ResizeType_roundtrip.
Qed.

(** ** [ModelBand] *)

(** X6: whatever it was built from, a [ModelBand] has its [format] unset
    exactly when its [expression] is unset. *)
Theorem ModelBand_invariant base v x :
  ModelBand.validate base v = Ok x ->
  str_ok base (ModelBand.name x)
  /\ (ModelBand.format x = None <-> ModelBand.expression x = VNone).
Proof.
  intros H. apply ModelBand_validate_Ok in H as (Hn & _ & Hdep).
  split; [exact Hn|].
  destruct (ModelBand.format x), (ModelBand.expression x);
    simpl in Hdep; split; intros E; try reflexivity; discriminate.
Qed.

Lemma ModelBand_invariant_witness :
  str_ok example_base "NDVI"
  /\ (Some "rio-calc" = None <-> VStr "(B08 - B04) / (B08 + B04)" = VNone).
Proof.
  exact (ModelBand_invariant example_base
           (ModelBand_kwargs "NDVI" (Some "rio-calc")
              (Some (VStr "(B08 - B04) / (B08 + B04)")))
           (ModelBand.Build_t "NDVI" (Some "rio-calc")
              (VStr "(B08 - B04) / (B08 + B04)"))
           eq_refl).
Defined.

(** X7: for [format] and [expression], an explicit null is the same as
    leaving the key out: the four ways of writing a band without either give
    the same band. *)
Theorem ModelBand_None_is_omission base n (with_format with_expression : bool) :
  str_ok base n ->
  ModelBand.validate base
    (VDict (("name", VStr n)
            :: (if with_format then [("format", VNone)] else [])
            ++ (if with_expression then [("expression", VNone)] else [])))
  = Ok (ModelBand.Build_t n None VNone).
Proof.
  intros Hn. unfold ModelBand.validate, model, required, with_default.
  destruct with_format, with_expression;
    cbn [app get String.eqb Ascii.eqb Bool.eqb optional];
    rewrite (validate_str_VStr base n Hn); reflexivity.
Qed.

Lemma ModelBand_None_is_omission_witness :
  ModelBand.validate example_base
    (VDict [("name", VStr "B02"); ("format", VNone); ("expression", VNone)])
  = ModelBand.validate example_base (VDict [("name", VStr "B02")]).
Proof.
  assert (Hn : str_ok example_base "B02") by (unfold str_ok; simpl; lia).
  exact (eq_trans (ModelBand_None_is_omission example_base "B02" true true Hn)
           (eq_sym (ModelBand_None_is_omission example_base "B02" false false Hn))).
Defined.

(** ** Elements of [bands] *)

(** X8: the kind of an element of [bands] decides what it becomes: only a
    string gives a named band, and it is kept as it is; only an object gives a
    [ModelBand], and it is the one [ModelBand] validation builds from it. *)
Theorem band_follows_kind base v b :
  validate_band base v = Ok b ->
  match b with
  | Named s => v = VStr s
  | Band m => (exists d, v = VDict d) /\ ModelBand.validate base v = Ok m
  end.
Proof.
  unfold validate_band. cbn [union]. intros H.
  destruct (validate_str base v) as [s|e] eqn:Es; cbn [fmap] in H.
  - injection H as <-. now apply validate_str_Ok in Es.
  - destruct (ModelBand.validate base v) as [m|e'] eqn:Em; cbn [fmap] in H;
      [|discriminate].
    injection H as <-. split; [|reflexivity].
    destruct v; try discriminate Em. eauto.
Qed.

Lemma band_follows_kind_witness :
  VStr "B01" = VStr "B01"
  /\ ((exists d, VDict [("name", VStr "B02")] = VDict d)
      /\ ModelBand.validate example_base (VDict [("name", VStr "B02")])
         = Ok (ModelBand.Build_t "B02" None VNone)).
Proof.
  split.
  - exact (band_follows_kind example_base (VStr "B01") (Named "B01") eq_refl).
  - exact (band_follows_kind example_base (VDict [("name", VStr "B02")])
             (Band (ModelBand.Build_t "B02" None VNone)) eq_refl).
Defined.

(** ** [ModelInput] *)

Lemma ModelInput_validate_fields base d x :
  ModelInput.validate base (VDict d) = Ok x ->
  required d "name" (validate_str base) = Ok (ModelInput.name x)
  /\ required d "bands" (list_of 0 (validate_band base)) = Ok (ModelInput.bands x)
  /\ required d "input" (InputStructure.validate base) = Ok (ModelInput.input x)
  /\ with_default d "scaling" None
       (optional (list_of 0 (validate_ScalingObject base)))
     = Ok (ModelInput.scaling x)
  /\ with_default d "resize_type" None validate_ResizeType
     = Ok (ModelInput.resize_type x)
  /\ with_default d "pre_processing_function" None
       (optional (ProcessingExpression.validate base))
     = Ok (ModelInput.pre_processing_function x).
Proof.
  unfold ModelInput.validate, model. intros H. peel H. subst.
  cbn [ModelInput.name ModelInput.bands ModelInput.input ModelInput.scaling
       ModelInput.resize_type ModelInput.pre_processing_function].
  repeat split; assumption.
Qed.

Lemma Forall2_Exists_fails {A} (validate : value -> result A) l xs :
  Forall2 (fun v a => validate v = Ok a) l xs ->
  Exists (fun v => fails (validate v) = true) l -> False.
Proof.
  induction 1 as [|v a l xs Hv _ IH]; intros E; inversion E; subst; auto.
  rewrite Hv in *. discriminate.
Qed.

(** X9: [name], [bands] and [input] have no default: a document without one
    of them is rejected.  An input that needs no band has to say so with an
    empty list. *)
Theorem ModelInput_fields_required base d :
  get "name" d = None \/ get "bands" d = None \/ get "input" d = None ->
  fails (ModelInput.validate base (VDict d)) = true.
Proof.
  intros H. apply fails_not_Ok. intros x Hx.
  apply ModelInput_validate_fields in Hx as (Hn & Hb & Hi & _).
  apply required_Ok in Hn as (vn & Gn & _).
  apply required_Ok in Hb as (vb & Gb & _).
  apply required_Ok in Hi as (vi & Gi & _).
  destruct H as [H|[H|H]]; congruence.
Qed.

Lemma ModelInput_fields_required_witness :
  fails (ModelInput.validate example_base
           (VDict [("name", VStr "sentinel");
                   ("input",
                    InputStructure_kwargs [NInt 1; NInt 3] ["batch"; "channel"]
                                          "uint8")])) = true.
Proof.
  apply ModelInput_fields_required. right. left. reflexivity.
Defined.

(** X10: the validators of the parts hold inside the whole: in a
    [ModelInput], whatever it was built from, the [input] structure has as
    many dimension names as dimensions, and at least one, and every
    [ModelBand] among the [bands] has its [format] unset exactly when its
    [expression] is. *)
Theorem ModelInput_invariant base v x :
  ModelInput.validate base v = Ok x ->
  str_ok base (ModelInput.name x)
  /\ List.length (InputStructure.shape (ModelInput.input x))
     = List.length (InputStructure.dim_order (ModelInput.input x))
  /\ 1 <= List.length (InputStructure.shape (ModelInput.input x))
  /\ Forall (fun b => match b with
                      | Named s => str_ok base s
                      | Band m => ModelBand.format m = None
                                  <-> ModelBand.expression m = VNone
                      end) (ModelInput.bands x).
Proof.
  destruct v; try discriminate. intros H.
  apply ModelInput_validate_fields in H as (Hn & Hb & Hi & _).
  apply required_Ok in Hn as (vn & _ & Hn). apply validate_str_Ok in Hn as (_ & Hn).
  apply required_Ok in Hi as (vi & _ & Hi).
  apply InputStructure_validate_Ok in Hi as (Hlen & Hpos & _).
  apply required_Ok in Hb as (vb & _ & Hb).
  apply list_of_Ok in Hb as (lb & _ & Hb & _). apply traverse_Ok in Hb.
  repeat split; auto.
  induction Hb as [|w b lb bs Hw _ IH]; constructor; auto.
  unfold validate_band in Hw. cbn [union] in Hw.
  destruct (validate_str base w) as [s|e] eqn:Es; cbn [fmap] in Hw.
  - injection Hw as <-. now apply validate_str_Ok in Es.
  - destruct (ModelBand.validate base w) as [m|e'] eqn:Em; cbn [fmap] in Hw;
      [|discriminate].
    injection Hw as <-.
    apply ModelBand_validate_Ok in Em as (_ & _ & Hdep).
    destruct (ModelBand.format m), (ModelBand.expression m);
      simpl in Hdep; split; intros E; try reflexivity; discriminate.
Qed.

Lemma ModelInput_invariant_witness :
  List.length (InputStructure.shape (ModelInput.input example_model))
  = List.length (InputStructure.dim_order (ModelInput.input example_model)).
Proof.
  exact (proj1 (proj2 (ModelInput_invariant example_base example_document
                         example_model eq_refl))).
Defined.

(** X11: one bad part rejects the whole: a document is rejected as soon as
    one element of its [bands] is not a valid band, its [input] is not a valid
    structure, or one entry of its [scaling] is not a valid scaling object. *)
Theorem ModelInput_rejects_bad_part base d :
  (exists l, get "bands" d = Some (VList l)
             /\ Exists (fun v => fails (validate_band base v) = true) l)
  \/ (exists vi, get "input" d = Some vi
                 /\ fails (InputStructure.validate base vi) = true)
  \/ (exists l, get "scaling" d = Some (VList l)
                /\ Exists (fun v => fails (validate_ScalingObject base v) = true) l) ->
  fails (ModelInput.validate base (VDict d)) = true.
Proof.
  intros H. apply fails_not_Ok. intros x Hx.
  apply ModelInput_validate_fields in Hx as (_ & Hb & Hi & Hs & _).
  destruct H as [(l & G & E)|[(vi & G & E)|(l & G & E)]].
  - unfold required in Hb. rewrite G in Hb.
    apply list_of_Ok in Hb as (l' & El & Hb & _). injection El as <-.
    apply traverse_Ok in Hb. exact (Forall2_Exists_fails _ _ _ Hb E).
  - unfold required in Hi. rewrite G in Hi. rewrite Hi in E. discriminate.
  - unfold with_default in Hs. rewrite G in Hs.
    apply optional_Ok in Hs as [(Hn & _)|(sc & Hs & _)]; [discriminate|].
    apply list_of_Ok in Hs as (l' & El & Hs & _). injection El as <-.
    apply traverse_Ok in Hs. exact (Forall2_Exists_fails _ _ _ Hs E).
Qed.

Lemma ModelInput_rejects_bad_part_witness :
  fails (ModelInput.validate example_base
           (VDict [("name", VStr "sentinel");
                   ("bands",
                    VList [VStr "B01";
                           VDict [("name", VStr "NDVI"); ("format", VStr "rio-calc")]]);
                   ("input",
                    InputStructure_kwargs [NInt 1; NInt 3] ["batch"; "channel"]
                                          "uint8")])) = true.
Proof.
  apply ModelInput_rejects_bad_part. left. eexists. split; [reflexivity|].
  apply Exists_cons_tl. apply Exists_cons_hd. reflexivity.
Defined.

(** X12: the three optional fields default to [None], and an explicit null is
    the same as leaving the key out: in a [ModelInput] each of them is [None]
    exactly when its key is absent from the document or null. *)
Theorem ModelInput_optional_defaults base d x :
  ModelInput.validate base (VDict d) = Ok x ->
  (ModelInput.scaling x = None
   <-> get "scaling" d = None \/ get "scaling" d = Some VNone)
  /\ (ModelInput.resize_type x = None
      <-> get "resize_type" d = None \/ get "resize_type" d = Some VNone)
  /\ (ModelInput.pre_processing_function x = None
      <-> get "pre_processing_function" d = None
          \/ get "pre_processing_function" d = Some VNone).
Proof.
  intros H. apply ModelInput_validate_fields in H as (_ & _ & _ & Hs & Hr & Hp).
  unfold with_default, validate_ResizeType in *.
  split; [|split].
  - destruct (get "scaling" d) as [v|]; [|injection Hs as <-; tauto].
    apply optional_Ok in Hs as [(-> & ->)|(a & Hs & ->)]; [tauto|].
    split; [discriminate|]. intros [E|E]; [discriminate|].
    injection E as ->. discriminate.
  - destruct (get "resize_type" d) as [v|]; [|injection Hr as <-; tauto].
    apply optional_Ok in Hr as [(-> & ->)|(a & Hr & ->)]; [tauto|].
    split; [discriminate|]. intros [E|E]; [discriminate|].
    injection E as ->. discriminate.
  - destruct (get "pre_processing_function" d) as [v|]; [|injection Hp as <-; tauto].
    apply optional_Ok in Hp as [(-> & ->)|(a & Hp & ->)]; [tauto|].
    split; [discriminate|]. intros [E|E]; [discriminate|].
    injection E as ->. discriminate.
Qed.

Lemma ModelInput_optional_defaults_witness :
  ModelInput.pre_processing_function example_model = None
  /\ ModelInput.scaling example_model <> None.
Proof.
  pose proof (ModelInput_optional_defaults example_base _ example_model
                (eq_refl : ModelInput.validate example_base example_document
                           = Ok example_model)) as (Hs & _ & Hp).
  split.
  - apply Hp. left. reflexivity.
  - intros E. apply Hs in E. destruct E as [E|E]; discriminate E.
Defined.

(** X13: [bands] and [scaling] are taken element by element: the list a
    [ModelInput] holds has one entry for each element of the document, in
    the same order, each the result of validating that element alone.
    Nothing is merged, dropped or reordered, so repeated bands stay
    repeated. *)
Theorem ModelInput_elementwise base d x :
  ModelInput.validate base (VDict d) = Ok x ->
  (exists l, get "bands" d = Some (VList l)
             /\ Forall2 (fun v b => validate_band base v = Ok b)
                        l (ModelInput.bands x))
  /\ (forall sc, ModelInput.scaling x = Some sc ->
        exists l, get "scaling" d = Some (VList l)
                  /\ Forall2 (fun v o => validate_ScalingObject base v = Ok o) l sc).
Proof.
  intros H. apply ModelInput_validate_fields in H as (_ & Hb & _ & Hs & _).
  split.
  - apply required_Ok in Hb as (vb & G & Hb).
    apply list_of_Ok in Hb as (l & -> & Hb & _).
    exists l. split; [exact G | now apply traverse_Ok].
  - intros sc E. rewrite E in Hs. unfold with_default in Hs.
    destruct (get "scaling" d) as [v|]; [|discriminate].
    apply optional_Ok in Hs as [(_ & Hs)|(a & Hs & Ea)]; [discriminate|].
    injection Ea as <-. apply list_of_Ok in Hs as (l & -> & Hs & _).
    exists l. split; [reflexivity | now apply traverse_Ok].
Qed.

Lemma ModelInput_elementwise_witness :
  exists l, get "bands" [("name", VStr "sentinel");
                         ("bands", VList [VStr "B04"; VStr "B04"]);
                         ("input",
                          InputStructure_kwargs [NInt 1] ["batch"] "uint8")]
            = Some (VList l)
            /\ Forall2 (fun v b => validate_band example_base v = Ok b)
                       l [Named "B04"; Named "B04"].
Proof.
  exact (proj1 (ModelInput_elementwise example_base
                  [("name", VStr "sentinel");
                   ("bands", VList [VStr "B04"; VStr "B04"]);
                   ("input", InputStructure_kwargs [NInt 1] ["batch"] "uint8")]
                  (ModelInput.Build_t "sentinel" [Named "B04"; Named "B04"]
                     (InputStructure.Build_t [NInt 1] ["batch"] "uint8")
                     None None None)
                  eq_refl)).
Defined.
